(** * query_umls: a client of the UMLS Metathesaurus REST service

    Shallow embedding of [query_umls.py] (classes [Authentication] and
    [searchUMLS]) and proofs about the ticket exchange, the paginated term
    search, the concept lookup and the table flattening.

    Layout:
    - Python values and exceptions ([json], [exn], [result]), module [Py];
    - the part of pandas that [get_df] calls, module [pd], and [get_df];
    - the HTML document and the XPath query of [get_tgt], module [lxml];
    - the upstream ([Upstream]: a server and the two decoders,
      [json.loads] and [lxml.html.fromstring]), the world of a run and the
      client itself;
    - what a run leaves in the trace of exchanges;
    - stub gateways, module [Stub];
    - facts about tables, the page loop, the tickets and the concept
      lookup;
    - runs and instances on the stub gateways. *)

From Stdlib Require Import String Ascii ZArith Bool Lia PeanoNat List.
Import ListNotations.
Local Open Scope string_scope.
Local Open Scope list_scope.

Set Implicit Arguments.
Set Warnings "-register-all".

(** ** Exceptions and results *)

(** The exception classes that the client or the libraries it calls can
    raise.  [AuthError] is the failure class that the documentation of the
    ticket exchange names; the module defines no such class and raises it
    nowhere.  [RequestException], [JSONDecodeError] and [ParserError] come
    from [requests], [json] and [lxml].  [Unmodelled] is not a Python
    exception: it marks an input outside the fragment of pandas that module
    [pd] describes. *)
Inductive exn : Type :=
| IndexError
| KeyError
| TypeError
| AttributeError
| ValueError
| RequestException
| JSONDecodeError
| ParserError
| AuthError
| Unmodelled.

Inductive result (A : Type) : Type :=
| Ok (a : A)
| Raise (e : exn).

Arguments Ok {A} a.
Arguments Raise {A} e.

Definition rbind {A B : Type} (r : result A) (f : A -> result B) : result B :=
  match r with
  | Ok a => f a
  | Raise e => Raise e
  end.

Definition rmap {A B : Type} (f : A -> B) (r : result A) : result B :=
  match r with
  | Ok a => Ok (f a)
  | Raise e => Raise e
  end.

Declare Scope result_scope.
Delimit Scope result_scope with result.
Notation "x <- c ;; k" := (rbind c (fun x => k))
  (at level 61, c at next level, right associativity) : result_scope.

(** ** Python values *)

(** What [json.loads] returns: [None], [bool], [int], [str], [list] and
    [dict].  A [dict] keeps insertion order, so it is an association list;
    the keys of a decoded object are distinct and a lookup takes the first
    binding.  JSON numbers with a fraction or an exponent (Python floats) are
    outside the embedding. *)
Inductive json : Type :=
| JNull
| JBool (b : bool)
| JNum (n : Z)
| JStr (s : string)
| JList (l : list json)
| JObj (d : list (string * json)).

Module Py.

Fixpoint lookup {A : Type} (k : string) (d : list (string * A)) : option A :=
  match d with
  | [] => None
  | (k', v) :: d' => if String.eqb k k' then Some v else lookup k d'
  end.

Definition has_key {A : Type} (k : string) (d : list (string * A)) : bool :=
  match lookup k d with
  | Some _ => true
  | None => false
  end.

(** The characters of a string, each as a one-character [str]. *)
Fixpoint chars (s : string) : list json :=
  match s with
  | EmptyString => []
  | String c s' => JStr (String c EmptyString) :: chars s'
  end.

(** [isinstance(v, dict)] *)
Definition isinstance_dict (v : json) : bool :=
  match v with
  | JObj _ => true
  | _ => false
  end.

(** [v == s] for a string literal [s]: equality with another type is
    [False], never an error. *)
Definition eq_str (v : json) (s : string) : bool :=
  match v with
  | JStr t => String.eqb t s
  | _ => false
  end.

(** [v[k]] for a string key [k]. *)
Definition getitem_str (v : json) (k : string) : result json :=
  match v with
  | JObj d =>
      match lookup k d with
      | Some x => Ok x
      | None => Raise KeyError
      end
  | _ => Raise TypeError
  end.

(** [v[i]] for an index [i >= 0]. *)
Definition getitem_int (v : json) (i : nat) : result json :=
  match v with
  | JList l =>
      match nth_error l i with
      | Some x => Ok x
      | None => Raise IndexError
      end
  | JStr s =>
      match String.get i s with
      | Some c => Ok (JStr (String c EmptyString))
      | None => Raise IndexError
      end
  | JObj _ => Raise KeyError
  | _ => Raise TypeError
  end.

(** [l[i]] on a Python list. *)
Definition list_getitem {A : Type} (l : list A) (i : nat) : result A :=
  match nth_error l i with
  | Some x => Ok x
  | None => Raise IndexError
  end.

(** [s in v] for a string [s]: key membership on a dict, element
    membership on a list, substring on a string. *)
Definition contains_str (s : string) (v : json) : result bool :=
  match v with
  | JObj d => Ok (has_key s d)
  | JList l => Ok (existsb (fun x => eq_str x s) l)
  | JStr t =>
      Ok (match String.index 0 s t with
          | Some _ => true
          | None => false
          end)
  | _ => Raise TypeError
  end.

(** [results.extend(v)]: the elements of a list, the characters of a
    string, the keys of a dict. *)
Definition extend (results : list json) (v : json) : result (list json) :=
  match v with
  | JList l => Ok (results ++ l)
  | JStr s => Ok (results ++ chars s)
  | JObj d => Ok (results ++ map (fun kv => JStr (fst kv)) d)
  | _ => Raise TypeError
  end.

(** [l[0:n]]: a negative bound counts from the end. *)
Definition slice0 {A : Type} (n : Z) (l : list A) : list A :=
  if (0 <=? n)%Z then firstn (Z.to_nat n) l
  else firstn (length l - Z.to_nat (- n)) l.

(** [len(l)] *)
Definition len {A : Type} (l : list A) : Z := Z.of_nat (length l).

End Py.

(** ** The part of pandas that [get_df] calls *)

(** A table is kept by column, as pandas keeps it: the number of rows (the
    default [RangeIndex]) and, for each column label in order, the cells of
    that column.  A cell is a value or [NaN], the marker of a missing value.
    Cells carry the values as decoded: the storage type that pandas infers
    for a column ([int64], [float64], [object], [str]) is not represented.
    Two things follow, and the statements about cells below keep to what
    they leave true.  A [null] is kept as [Val JNull], where pandas holds
    [None] or [NaN] according to the column: [isna] holds of both, and a
    cell is told missing by [isna] only.  A number is kept as the integer
    decoded, where pandas holds an [int64], or the [float64] next to it in
    a column that has a missing value: only [verbatim] values, which no
    column type touches, are compared with the cell. *)
Module pd.

Inductive label : Type :=
| LStr (s : string)
| LInt (i : nat).

Definition label_eqb (a b : label) : bool :=
  match a, b with
  | LStr s, LStr t => String.eqb s t
  | LInt i, LInt j => Nat.eqb i j
  | _, _ => false
  end.

Inductive cell : Type :=
| NaN
| Val (v : json).

Record DataFrame : Type := mkDataFrame {
  index : nat;
  columns : list (label * list cell)
}.

Fixpoint assoc {A : Type} (c : label) (l : list (label * A)) : option A :=
  match l with
  | [] => None
  | (c', x) :: l' => if label_eqb c c' then Some x else assoc c l'
  end.

(** [c in df.columns] *)
Definition in_columns (c : label) (df : DataFrame) : bool :=
  match assoc c (columns df) with
  | Some _ => true
  | None => false
  end.

(** The cell of row [i] in column [c], when the table has both. *)
Definition cell_at (df : DataFrame) (i : nat) (c : label) : option cell :=
  match assoc c (columns df) with
  | Some col => nth_error col i
  | None => None
  end.

(** [pd.isna(c)] for a cell: [NaN] and [None]. *)
Definition isna (c : cell) : bool :=
  match c with
  | NaN => true
  | Val JNull => true
  | Val _ => false
  end.

(** The values that a table holds as the very object decoded, whatever the
    type of the column: strings, booleans, lists and dicts.  A [null] and a
    number are the two that the type of a column can change. *)
Definition verbatim (v : json) : bool :=
  match v with
  | JNull => false
  | JNum _ => false
  | _ => true
  end.

(** Labels in order of first appearance, each once. *)
Fixpoint unique (ls : list label) : list label :=
  match ls with
  | [] => []
  | l :: ls' => l :: filter (fun x => negb (label_eqb l x)) (unique ls')
  end.

(** A labelled row: what a dict or a [Series] contributes to a table. *)
Definition lrow : Type := list (label * cell).

Definition align (c : label) (r : lrow) : cell :=
  match assoc c r with
  | Some x => x
  | None => NaN
  end.

(** A table from labelled rows: the columns are the union of the rows'
    labels in order of first appearance, and a row has [NaN] where it lacks
    a label.  Both [DataFrame(list of dicts)] and [DataFrame(list of
    Series)] build their table this way. *)
Definition of_rows (rs : list lrow) : DataFrame :=
  {| index := length rs;
     columns := map (fun c => (c, map (align c) rs))
                    (unique (flat_map (map fst) rs)) |}.

Definition labelled (d : list (string * json)) : lrow :=
  map (fun kv => (LStr (fst kv), Val (snd kv))) d.

Fixpoint as_records (data : list json) : option (list (list (string * json))) :=
  match data with
  | [] => Some []
  | JObj d :: data' =>
      match as_records data' with
      | Some ds => Some (d :: ds)
      | None => None
      end
  | _ => None
  end.

(** [pd.DataFrame(data)] for a list [data].  An empty list gives the empty
    table.  When the first element is a dict, every element is read as a
    dict (its [keys()] are taken), so another kind of element raises: an
    [AttributeError] in the pandas 1 and 2 that the module was written
    against (pandas 3 raises a [TypeError] there).  A list that starts with
    something else (scalars, nested lists) is outside the fragment. *)
Definition DataFrame_of (data : list json) : result DataFrame :=
  match data with
  | [] => Ok {| index := 0; columns := [] |}
  | JObj _ :: _ =>
      match as_records data with
      | Some ds => Ok (of_rows (map labelled ds))
      | None => Raise AttributeError
      end
  | _ => Raise Unmodelled
  end.

(** [df[c]] *)
Definition getitem (df : DataFrame) (c : label) : result (list cell) :=
  match assoc c (columns df) with
  | Some col => Ok col
  | None => Raise KeyError
  end.

Fixpoint mapM {A B : Type} (f : A -> result B) (l : list A) : result (list B) :=
  match l with
  | [] => Ok []
  | x :: l' =>
      match f x with
      | Ok y =>
          match mapM f l' with
          | Ok ys => Ok (y :: ys)
          | Raise e => Raise e
          end
      | Raise e => Raise e
      end
  end.

Definition is_list_cell (c : cell) : bool :=
  match c with
  | Val (JList _) => true
  | _ => false
  end.

(** One cell of [s.str[0]]: a missing value stays missing, an empty list
    gives [NaN] (the accessor does not raise on a short sequence), a list
    gives its element 0.  The fragment is the columns whose values are
    lists of objects: a list that starts with something else, which the
    accessor also takes element 0 of, is left out ([Unmodelled]). *)
Definition str_get0_cell (c : cell) : result cell :=
  match c with
  | NaN => Ok NaN
  | Val (JList []) => Ok NaN
  | Val (JList (JObj d :: _)) => Ok (Val (JObj d))
  | _ => Raise Unmodelled
  end.

(** [s.str[0]] on a column.  A column that holds at least one list is
    stored as [object] and passes the accessor's type check. *)
Definition str_get0 (s : list cell) : result (list cell) :=
  if existsb is_list_cell s then mapM str_get0_cell s
  else Raise Unmodelled.

(** [pd.Series(x)] for one cell: a dict gives one entry per key, [NaN]
    gives the one-element series labelled [0]. *)
Definition Series_of (c : cell) : result lrow :=
  match c with
  | NaN => Ok [(LInt 0, NaN)]
  | Val (JObj d) => Ok (labelled d)
  | _ => Raise Unmodelled
  end.

(** [s.apply(pd.Series)]: every cell becomes a series, and the list of
    series becomes a table with the rows of [s]. *)
Definition apply_Series (s : list cell) : result DataFrame :=
  match s with
  | [] => Raise Unmodelled
  | _ => rmap of_rows (mapM Series_of s)
  end.

(** [df[c] = col]: an existing column is replaced in place, a new one is
    added last. *)
Fixpoint set_col {A : Type} (c : label) (col : A) (cols : list (label * A))
  : list (label * A) :=
  match cols with
  | [] => [(c, col)]
  | (c', x) :: cols' =>
      if label_eqb c c' then (c, col) :: cols'
      else (c', x) :: set_col c col cols'
  end.

Fixpoint set_cols {A : Type} (keys : list label) (value : list (label * A))
  (cols : list (label * A)) : list (label * A) :=
  match keys, value with
  | k1 :: keys', (_, col) :: value' => set_cols keys' value' (set_col k1 col cols)
  | _, _ => cols
  end.

(** [df[keys] = value] for a table [value] with the rows of [df]: the
    numbers of keys and of columns of [value] must agree
    ([ValueError] otherwise), and the keys take the columns of [value] by
    position. *)
Definition setitem (df : DataFrame) (keys : list label) (value : DataFrame)
  : result DataFrame :=
  if Nat.eqb (length (columns value)) (length keys)
  then Ok {| index := index df; columns := set_cols keys (columns value) (columns df) |}
  else Raise ValueError.

(** [df.drop(c, inplace=True, axis=1)] *)
Definition drop (df : DataFrame) (c : label) : result DataFrame :=
  if in_columns c df
  then Ok {| index := index df;
             columns := filter (fun kc => negb (label_eqb c (fst kc))) (columns df) |}
  else Raise KeyError.

End pd.

(** [searchUMLS.get_df]: the list of records as a table, with element 0 of
    the [semanticTypes] list of each record spread over the two columns
    [semantic_type] and [TUI].  The method does not use [self]. *)
Definition get_df (json_data : list json) : result pd.DataFrame :=
  (df <- pd.DataFrame_of json_data ;;
   if pd.in_columns (pd.LStr "semanticTypes") df then
     (st <- pd.getitem df (pd.LStr "semanticTypes") ;;
      s0 <- pd.str_get0 st ;;
      expanded <- pd.apply_Series s0 ;;
      df1 <- pd.setitem df [pd.LStr "semantic_type"; pd.LStr "TUI"] expanded ;;
      pd.drop df1 (pd.LStr "semanticTypes"))
   else Ok df)%result.

(** ** Shapes of records *)

(** What the flattening keeps of a record's [semanticTypes]: the entries
    of element 0 of the list, or the one-element series of a missing
    value. *)
Definition srow (d : list (string * json)) : pd.lrow :=
  match Py.lookup "semanticTypes" d with
  | Some (JList (JObj x :: _)) => pd.labelled x
  | _ => [(pd.LInt 0, pd.NaN)]
  end.

(** The records whose [semanticTypes], when present, is a list that is
    empty or starts with an object. *)
Definition in_fragment (d : list (string * json)) : bool :=
  match Py.lookup "semanticTypes" d with
  | None => true
  | Some (JList []) => true
  | Some (JList (JObj _ :: _)) => true
  | Some _ => false
  end.

Definition has_list (d : list (string * json)) : bool :=
  match Py.lookup "semanticTypes" d with
  | Some (JList _) => true
  | _ => false
  end.

(** The two-field descriptor of a semantic type: its label under [name]
    and its identifier under [ui]. *)
Definition descriptor (a t : string) : json :=
  JObj [("name", JStr a); ("ui", JStr t)].

(** A two-field object with string values, under any two keys. *)
Definition keyed_descriptor (k1 : string) (a : string) (k2 : string) (t : string) : json :=
  JObj [(k1, JStr a); (k2, JStr t)].

(** The two-field objects: what the data model calls a semantic-type
    descriptor. *)
Definition is_descriptor (v : json) : bool :=
  match v with
  | JObj [(k1, _); (k2, _)] => negb (String.eqb k1 k2)
  | _ => false
  end.

(** A record whose [semanticTypes], when present, is a list that is empty
    or starts with a descriptor. *)
Definition semantic_types_ok (d : list (string * json)) : bool :=
  match Py.lookup "semanticTypes" d with
  | None => true
  | Some (JList []) => true
  | Some (JList (x :: _)) => is_descriptor x
  | Some _ => false
  end.

Definition empty_semantic_types (d : list (string * json)) : bool :=
  match Py.lookup "semanticTypes" d with
  | Some (JList []) => true
  | _ => false
  end.

Definition nonempty_semantic_types (d : list (string * json)) : bool :=
  match Py.lookup "semanticTypes" d with
  | Some (JList (_ :: _)) => true
  | _ => false
  end.

(** ** The HTML document of the gateway's answer *)

Module lxml.

(** A parsed document: elements with their attributes and children, and
    text.  [lxml.html] gives tag and attribute names in lower case. *)
Inductive node : Type :=
| Element (tag : string) (attrib : list (string * string)) (children : list node)
| Text (s : string).

(** [doc.xpath('//form/@action')]: the value of the [action] attribute of
    every [form] element that has one, in document order. *)
Fixpoint xpath_form_action (n : node) : list string :=
  match n with
  | Text _ => []
  | Element tag attrib children =>
      (if String.eqb tag "form"
       then match Py.lookup "action" attrib with
            | Some a => [a]
            | None => []
            end
       else [])
      ++ flat_map xpath_form_action children
  end.

(** [form_action n a]: the document [n] contains a [form] element whose
    [action] attribute is [a]. *)
Inductive form_action : node -> string -> Prop :=
| form_here (attrib : list (string * string)) (children : list node) (a : string) :
    Py.lookup "action" attrib = Some a ->
    form_action (Element "form" attrib children) a
| form_below (tag : string) (attrib : list (string * string)) (children : list node)
    (c : node) (a : string) :
    In c children ->
    form_action c a ->
    form_action (Element tag attrib children) a.

End lxml.

(** ** HTTP exchanges *)

Record Response : Type := mkResponse {
  status_code : Z;
  text : string
}.

(** A call of [requests.post(url, data=..., headers=...)] or of
    [requests.get(url, params=...)]. *)
Inductive Request : Type :=
| POST (url : string) (data : list (string * string)) (headers : list (string * string))
| GET (url : string) (params : list (string * json)).

(** One exchange: the request and what [requests] returned or raised. *)
Definition Event : Type := (Request * result Response)%type.

(** ** Module globals and the two classes' fields *)

Definition uri : string := "https://utslogin.nlm.nih.gov".
Definition auth_endpoint : string := "/cas/v1/api-key".

Module Authentication.
Record t : Type := mk { apikey : string; service : string }.
(** [__init__] *)
Definition init (apikey : string) : t :=
  {| apikey := apikey; service := "http://umlsks.nlm.nih.gov" |}.
End Authentication.

Module searchUMLS.
Record t : Type := mk { apikey : string; auth : Authentication.t }.
(** [__init__] *)
Definition init (apikey : string) : t :=
  {| apikey := apikey; auth := Authentication.init apikey |}.
End searchUMLS.

(** What a search returns: the list of records ([as_df=False]) or the table
    ([as_df=True]). *)
Inductive output : Type :=
| AsList (l : list json)
| AsTable (df : pd.DataFrame).

Definition n_rows (o : output) : nat :=
  match o with
  | AsList l => length l
  | AsTable df => pd.index df
  end.

(** The [if as_df: results = self.get_df(results)] that ends both searches. *)
Definition finish (as_df : bool) (results : list json) : result output :=
  if as_df then rmap AsTable (get_df results) else Ok (AsList results).

(** The control flow out of one pass of the page loop. *)
Inductive flow : Type :=
| Break
| Continue.

(** Lines 135-148 of [search_term]: what one page does to [results].
    [res_count] is only read after the [else] branch has set it. *)
Definition page_step (n : Z) (results : list json) (json_data : json)
  : result (flow * list json) :=
  if Py.isinstance_dict json_data then
    (rs <- Py.getitem_str json_data "results" ;;
     r0 <- Py.getitem_int rs 0 ;;
     ui <- Py.getitem_str r0 "ui" ;;
     if Py.eq_str ui "NONE" then Ok (Break, results)
     else
       (rs' <- Py.getitem_str json_data "results" ;;
        results' <- Py.extend results rs' ;;
        let res_count := Py.len results' in
        if (res_count >=? n)%Z then Ok (Break, results')
        else Ok (Continue, results')))%result
  else Ok (Break, results).

(** The rows that a page supplies: the [results] of a single-object
    payload whose first result is a record with an identifier other than
    the marker [NONE]. *)
Definition page_rows (json_data : json) : list json :=
  match json_data with
  | JObj d =>
      match Py.lookup "results" d with
      | Some (JList (JObj x :: rest)) =>
          match Py.lookup "ui" x with
          | Some ui => if Py.eq_str ui "NONE" then [] else JObj x :: rest
          | None => []
          end
      | _ => []
      end
  | _ => []
  end.

(** The payloads at which the page loop stops without a failure and
    without a new row: anything that is not a dict, and the dict whose first
    result is a record with the marker [NONE] for identifier. *)
Definition page_ends (json_data : json) : bool :=
  match json_data with
  | JObj d =>
      match Py.lookup "results" d with
      | Some (JList (JObj x :: _)) =>
          match Py.lookup "ui" x with
          | Some ui => Py.eq_str ui "NONE"
          | None => false
          end
      | _ => false
      end
  | _ => true
  end.

(** What the upstream holds for a search, page by page: [book p] is the
    [result] member of the answer to the request of page [p].
    [upstream_rows book page count] is the rows of the [count] pages that
    follow page [page], in order. *)
Fixpoint upstream_rows (book : Z -> json) (page : Z) (count : nat) : list json :=
  match count with
  | O => []
  | S count' => page_rows (book (page + 1)%Z) ++ upstream_rows book (page + 1)%Z count'
  end.

(** A single-object payload whose [results] list is empty. *)
Definition is_empty_results (json_data : json) : bool :=
  match json_data with
  | JObj d =>
      match Py.lookup "results" d with
      | Some (JList []) => true
      | _ => false
      end
  | _ => false
  end.

(** The records of the identifiers that a catalogue knows, in order. *)
Definition resolved (db : string -> option json) (cui_lst : list string) : list json :=
  flat_map (fun cui => match db cui with
                       | Some row => [row]
                       | None => []
                       end) cui_lst.

(** ** The client *)

(** The upstream: a server with a state of its own that answers each
    request (or makes [requests] raise), and the two decoders of the
    libraries, [json.loads] and [lxml.html.fromstring]. *)
Class Upstream : Type := {
  St : Type;
  serve : St -> Request -> result Response * St;
  json_loads : string -> result json;
  fromstring : string -> result lxml.node
}.

Section Run.

Context {up : Upstream}.

(** The world of a run: the server, the exchanges so far (oldest first)
    and the lines printed. *)
Record World : Type := mkWorld {
  server : St;
  trace : list Event;
  stdout : list string
}.

Definition M (A : Type) : Type := World -> result A * World.

Definition ret {A : Type} (a : A) : M A := fun w => (Ok a, w).

Definition bind {A B : Type} (m : M A) (f : A -> M B) : M B :=
  fun w =>
    match m w with
    | (Ok a, w') => f a w'
    | (Raise e, w') => (Raise e, w')
    end.

Definition lift {A : Type} (r : result A) : M A := fun w => (r, w).

(** The world once the server, now in state [s], has answered [q] by [r]. *)
Definition after (w : World) (q : Request) (r : result Response) (s : St) : World :=
  {| server := s; trace := trace w ++ [(q, r)]; stdout := stdout w |}.

End Run.

Arguments World {up}.
Arguments M {up} A.

Declare Scope io_scope.
Delimit Scope io_scope with io.
Notation "x <- c ;; k" := (bind c (fun x => k))
  (at level 61, c at next level, right associativity) : io_scope.

Section Client.

Context {up : Upstream}.

(** One call of [requests]: the server answers and the exchange is
    recorded. *)
Definition exchange (q : Request) : M Response :=
  fun w =>
    let (r, s) := serve (server w) q in
    (r, after w q r s).

Definition requests_post (url : string) (data headers : list (string * string))
  : M Response :=
  exchange (POST url data headers).

Definition requests_get (url : string) (params : list (string * json))
  : M Response :=
  exchange (GET url params).

(** [print(line)] *)
Definition print (line : string) : M unit :=
  fun w =>
    (Ok tt, {| server := server w; trace := trace w; stdout := stdout w ++ [line] |}).

Definition h : list (string * string) :=
  [("Content-type", "application/x-www-form-urlencoded");
   ("Accept", "text/plain");
   ("User-Agent", "python")].

(** [Authentication.get_tgt] *)
Definition get_tgt (self : Authentication.t) : M string :=
  (let params := [("apikey", Authentication.apikey self)] in
   r <- requests_post (uri ++ auth_endpoint)%string params h ;;
   response <- lift (fromstring (text r)) ;;
   tgt <- lift (Py.list_getitem (lxml.xpath_form_action response) 0) ;;
   ret tgt)%io.

(** [Authentication.get_st] *)
Definition get_st (self : Authentication.t) (tgt : string) : M string :=
  (let params := [("service", Authentication.service self)] in
   r <- requests_post tgt params h ;;
   let st := text r in
   ret st)%io.

(** The [uri] that both searches bind locally, over the global of the
    same name. *)
Definition rest_uri : string := "https://uts-ws.nlm.nih.gov/rest/".

Definition opt_str (o : option string) : json :=
  match o with
  | Some s => JStr s
  | None => JNull
  end.

(** Lines 123-135 of [search_term]: a new service ticket, the request of
    page [page] and the [result] member of the decoded answer.  The body is
    decoded as UTF-8 ([r.encoding = 'utf-8']): [text r] is the decoded
    body. *)
Definition fetch_page (self : searchUMLS.t) (search_str : string)
  (vocab : option string) (id_type : string) (tgt : string) (page : Z) : M json :=
  (let uri := rest_uri in
   let content_endpoint := "search/current" in
   service_ticket <- get_st (searchUMLS.auth self) tgt ;;
   let query := [("string", JStr search_str);
                 ("ticket", JStr service_ticket);
                 ("pageNumber", JNum page);
                 ("sabs", opt_str vocab);
                 ("returnIdType", JStr id_type)] in
   r <- requests_get (uri ++ content_endpoint)%string query ;;
   items <- lift (json_loads (text r)) ;;
   let json_data := Py.getitem_str items "result" in
   lift json_data)%io.

(** The [while True] of [search_term], with [fuel] bounding the number
    of passes: [None] when the fuel runs out. *)
Fixpoint search_term_loop (fuel : nat) (self : searchUMLS.t)
  (search_str : string) (vocab : option string) (id_type : string) (n : Z)
  (tgt : string) (page : Z) (results : list json) (w : World)
  : option (result (list json) * World) :=
  match fuel with
  | O => None
  | S fuel' =>
      let page := (page + 1)%Z in
      match fetch_page self search_str vocab id_type tgt page w with
      | (Raise e, w1) => Some (Raise e, w1)
      | (Ok json_data, w1) =>
          match page_step n results json_data with
          | Raise e => Some (Raise e, w1)
          | Ok (Break, results') => Some (Ok results', w1)
          | Ok (Continue, results') =>
              search_term_loop fuel' self search_str vocab id_type n tgt page results' w1
          end
      end
  end.

(** [searchUMLS.search_term], for an integer [num_results]. *)
Definition search_term (fuel : nat) (self : searchUMLS.t) (search_str : string)
  (vocab : option string) (id_type : string) (num_results : Z) (as_df : bool)
  (w : World) : option (result output * World) :=
  let n := num_results in
  match get_tgt (searchUMLS.auth self) w with
  | (Raise e, w0) => Some (Raise e, w0)
  | (Ok tgt, w0) =>
      match search_term_loop fuel self search_str vocab id_type n tgt 0 [] w0 with
      | None => None
      | Some (Raise e, w1) => Some (Raise e, w1)
      | Some (Ok results, w1) => Some (finish as_df (Py.slice0 n results), w1)
      end
  end.

(** The [for cui in cui_lst] of [search_cui]. *)
Fixpoint search_cui_loop (self : searchUMLS.t) (cui_lst : list string)
  (results : list json) : M (list json) :=
  match cui_lst with
  | [] => ret results
  | cui :: cui_lst' =>
      (_ <- print cui ;;
       tgt <- get_tgt (searchUMLS.auth self) ;;
       let uri := rest_uri in
       let content_endpoint := "content/current" in
       service_ticket <- get_st (searchUMLS.auth self) tgt ;;
       let query := [("ticket", JStr service_ticket)] in
       r <- requests_get (((uri ++ content_endpoint) ++ "/CUI/") ++ cui)%string query ;;
       items <- lift (json_loads (text r)) ;;
       err <- lift (Py.contains_str "error" items) ;;
       if (err : bool) then
         (_ <- print ("No results found for " ++ cui)%string ;;
          search_cui_loop self cui_lst' results)
       else
         (res <- lift (Py.getitem_str items "result") ;;
          search_cui_loop self cui_lst' (results ++ [res])))%io
  end.

(** [searchUMLS.search_cui] *)
Definition search_cui (self : searchUMLS.t) (cui_lst : list string) (as_df : bool)
  : M output :=
  (results <- search_cui_loop self cui_lst [] ;;
   lift (finish as_df results))%io.

(** ** What a run leaves in the trace *)

(** The [result] member of the answer to a page request, when the
    exchange is a [GET] whose body decodes to a dict that has one. *)
Definition page_payload (ev : Event) : option json :=
  match ev with
  | (GET _ _, Ok r) =>
      match json_loads (text r) with
      | Ok items =>
          match Py.getitem_str items "result" with
          | Ok json_data => Some json_data
          | Raise _ => None
          end
      | Raise _ => None
      end
  | _ => None
  end.

(** The page payloads of a trace, oldest first. *)
Definition payloads (tr : list Event) : list json :=
  flat_map (fun ev => match page_payload ev with
                      | Some json_data => [json_data]
                      | None => []
                      end) tr.

(** The rows that the pages of a trace supply, in order. *)
Definition supplied (tr : list Event) : list json :=
  flat_map page_rows (payloads tr).

Definition tgt_request (self : Authentication.t) : Request :=
  POST (uri ++ auth_endpoint)%string [("apikey", Authentication.apikey self)] h.

Definition st_request (self : Authentication.t) (tgt : string) : Request :=
  POST tgt [("service", Authentication.service self)] h.

Definition cui_url (cui : string) : string :=
  (((rest_uri ++ "content/current") ++ "/CUI/") ++ cui)%string.

(** The granting ticket that [get_tgt] reads in an answer of the gateway. *)
Definition granting_ticket (r : Response) : option string :=
  match fromstring (text r) with
  | Ok doc => hd_error (lxml.xpath_form_action doc)
  | Raise _ => None
  end.

(** The three answers that the lookup of one identifier received. *)
Record visit : Type := mkVisit {
  v_cui : string;
  v_auth : Response;
  v_ticket : Response;
  v_answer : Response
}.

(** The exchanges of the lookup of one identifier: a granting ticket is
    asked for, a service ticket is asked for at the address just granted,
    and the concept is requested with the ticket just issued. *)
Definition visit_events (self : searchUMLS.t) (v : visit) : list Event :=
  match granting_ticket (v_auth v) with
  | Some tgt =>
      [(tgt_request (searchUMLS.auth self), Ok (v_auth v));
       (st_request (searchUMLS.auth self) tgt, Ok (v_ticket v));
       (GET (cui_url (v_cui v)) [("ticket", JStr (text (v_ticket v)))], Ok (v_answer v))]
  | None => []
  end.

(** The record that the answer resolves to, if it carries no error. *)
Definition visit_record (v : visit) : list json :=
  match json_loads (text (v_answer v)) with
  | Ok items =>
      match Py.contains_str "error" items with
      | Ok false =>
          match Py.getitem_str items "result" with
          | Ok res => [res]
          | Raise _ => []
          end
      | _ => []
      end
  | Raise _ => []
  end.

(** A gateway that always grants tickets and that answers the lookup of
    an identifier of [cui_lst] from a catalogue [db]: a [result] and no
    [error] for an identifier of the catalogue, an [error] payload for any
    other. *)
Definition gateway_serves (db : string -> option json) (cui_lst : list string) : Prop :=
  (forall s data hdrs, exists r s' doc a l,
      serve s (POST (uri ++ auth_endpoint)%string data hdrs) = (Ok r, s') /\
      fromstring (text r) = Ok doc /\
      lxml.xpath_form_action doc = a :: l) /\
  (forall s url data hdrs, exists r s',
      serve s (POST url data hdrs) = (Ok r, s')) /\
  (forall s cui params, In cui cui_lst -> exists r s' items,
      serve s (GET (cui_url cui) params) = (Ok r, s') /\
      json_loads (text r) = Ok (JObj items) /\
      match db cui with
      | Some row => Py.lookup "error" items = None /\ Py.lookup "result" items = Some row
      | None => Py.lookup "error" items <> None
      end).

(** ** What a term search asks for *)

(** The address of the term search. *)
Definition term_url : string := (rest_uri ++ "search/current")%string.

(** The parameters of the request of page [page] under the ticket
    [service_ticket]. *)
Definition page_query (search_str : string) (vocab : option string) (id_type : string)
  (service_ticket : string) (page : Z) : list (string * json) :=
  [("string", JStr search_str);
   ("ticket", JStr service_ticket);
   ("pageNumber", JNum page);
   ("sabs", opt_str vocab);
   ("returnIdType", JStr id_type)].

(** The exchanges of the pages that follow page [page], given the answers
    received: for each page, a service ticket is asked for at the granting
    ticket [tgt], and the page is requested under the ticket just issued. *)
Fixpoint page_events (self : searchUMLS.t) (search_str : string)
  (vocab : option string) (id_type : string) (tgt : string) (page : Z)
  (answers : list (Response * Response)) : list Event :=
  match answers with
  | [] => []
  | (r_ticket, r_page) :: answers' =>
      (st_request (searchUMLS.auth self) tgt, Ok r_ticket)
      :: (GET term_url (page_query search_str vocab id_type (text r_ticket) (page + 1)),
          Ok r_page)
      :: page_events self search_str vocab id_type tgt (page + 1) answers'
  end.

Definition is_GET (ev : Event) : bool :=
  match ev with
  | (GET _ _, _) => true
  | _ => false
  end.

Definition is_POST (ev : Event) : bool :=
  match ev with
  | (POST _ _ _, _) => true
  | _ => false
  end.

(** The payloads that a pass of the page loop goes through without
    raising: anything that is not a dict, and the dicts whose [results] is a
    list that starts with a dict holding a [ui]. *)
Definition well_formed_page (json_data : json) : bool :=
  match json_data with
  | JObj d =>
      match Py.lookup "results" d with
      | Some (JList (JObj x :: _)) => Py.has_key "ui" x
      | _ => false
      end
  | _ => true
  end.

(** The lines that a batch prints against a catalogue: every identifier,
    and a notice after each one that the catalogue does not know. *)
Definition printed (db : string -> option json) (cui_lst : list string) : list string :=
  flat_map (fun cui => match db cui with
                       | Some _ => [cui]
                       | None => [cui; ("No results found for " ++ cui)%string]
                       end) cui_lst.

(** A gateway that always grants tickets and that answers the request of
    every page of the search for [search_str] from the book [book],
    whatever its state and whatever the ticket: the body decodes to a dict
    whose [result] is [book page]. *)
Definition gateway_pages (search_str : string) (vocab : option string)
  (id_type : string) (book : Z -> json) : Prop :=
  (forall s data hdrs, exists r s' doc a l,
      serve s (POST (uri ++ auth_endpoint)%string data hdrs) = (Ok r, s') /\
      fromstring (text r) = Ok doc /\
      lxml.xpath_form_action doc = a :: l) /\
  (forall s url data hdrs, exists r s',
      serve s (POST url data hdrs) = (Ok r, s')) /\
  (forall s service_ticket page, exists r s' items,
      serve s (GET term_url (page_query search_str vocab id_type service_ticket page))
        = (Ok r, s') /\
      json_loads (text r) = Ok items /\
      Py.getitem_str items "result" = Ok (book page)).

End Client.

(** ** Stub gateways *)

(** Two gateways to run the client against.  Bodies are named rather than
    spelled out: the decoders below give the document that each name stands
    for. *)
Module Stub.

(** The granting ticket of the stub: the address that the login form posts
    to. *)
Definition tgt : string := "https://utslogin.nlm.nih.gov/cas/v1/api-key/TGT-1-cas".

Definition form_doc : lxml.node :=
  lxml.Element "html" []
    [lxml.Element "head" [] [lxml.Element "title" [] [lxml.Text "201 Created"]];
     lxml.Element "body" []
       [lxml.Element "h1" [] [lxml.Text "TGT Created"];
        lxml.Element "form" [("action", tgt); ("method", "POST")]
          [lxml.Text "Service:";
           lxml.Element "input" [("type", "text"); ("name", "service")] [];
           lxml.Element "input" [("type", "submit"); ("value", "Submit")] []]]].

Definition plain_doc (s : string) : lxml.node :=
  lxml.Element "html" [] [lxml.Element "body" [] [lxml.Element "p" [] [lxml.Text s]]].

Definition parse (s : string) : result lxml.node :=
  if String.eqb s EmptyString then Raise ParserError
  else if String.eqb s "created" then Ok form_doc
  else Ok (plain_doc s).

Definition hit (ui name : string) : json :=
  JObj [("ui", JStr ui); ("rootSource", JStr "MTH"); ("name", JStr name)].

Definition page (number : Z) (results : list json) : json :=
  JObj [("pageSize", JNum 25);
        ("pageNumber", JNum number);
        ("result", JObj [("classType", JStr "searchResults"); ("results", JList results)])].

Definition concept (ui name label tui : string) : json :=
  JObj [("ui", JStr ui); ("name", JStr name);
        ("semanticTypes", JList [descriptor label tui])].

Definition c_fracture : json := concept "C0009044" "Closed fracture of carpal bone" "Injury or Poisoning" "T037".
Definition c_pain : json := concept "C2097260" "Pain of knee" "Sign or Symptom" "T184".

(** The catalogue behind the concept lookups of the stub. *)
Definition catalogue (cui : string) : option json :=
  if String.eqb cui "C0009044" then Some c_fracture
  else if String.eqb cui "C2097260" then Some c_pain
  else None.

Definition decode (s : string) : result json :=
  if String.eqb s "stone-1" then
    Ok (page 1 [hit "C0022650" "Kidney Calculi"; hit "C0392525" "Nephrolithiasis";
                hit "C0041952" "Ureteral Calculi"])
  else if String.eqb s "stone-2" then
    Ok (page 2 [hit "C0042018" "Urinary Calculi"; hit "C0403719" "Staghorn calculus"])
  else if String.eqb s "no-results" then
    Ok (page 1 [hit "NONE" "NO RESULTS"])
  else if String.eqb s "drained" then
    Ok (page 2 [])
  else if String.eqb s "concept-C0009044" then
    Ok (JObj [("pageSize", JNum 25); ("result", c_fracture)])
  else if String.eqb s "concept-C2097260" then
    Ok (JObj [("pageSize", JNum 25); ("result", c_pain)])
  else if String.eqb s "not-found" then
    Ok (JObj [("name", JStr "NotFoundError"); ("status", JNum 404);
              ("error", JStr "Results not found.")])
  else Raise JSONDecodeError.

Definition search_url : string := "https://uts-ws.nlm.nih.gov/rest/search/current".
Definition content_url : string := "https://uts-ws.nlm.nih.gov/rest/content/current/CUI/".

(** The body of the page [number] of the search for [text]: [kidney stone]
    has two pages of matches, then the marker; [gall stone] has one page,
    then a page without results; anything else has no match. *)
Definition search_body (text : json) (number : json) : string :=
  match text, number with
  | JStr t, JNum n =>
      if String.eqb t "kidney stone" then
        if (n =? 1)%Z then "stone-1" else if (n =? 2)%Z then "stone-2" else "no-results"
      else if String.eqb t "gall stone" then
        if (n =? 1)%Z then "stone-1" else "drained"
      else "no-results"
  | _, _ => "no-results"
  end.

Definition answer (q : Request) : result Response :=
  match q with
  | POST url _ _ =>
      if String.eqb url (uri ++ auth_endpoint)
      then Ok {| status_code := 201; text := "created" |}
      else Ok {| status_code := 200; text := "ST-1-cas" |}
  | GET url params =>
      if String.eqb url search_url then
        match Py.lookup "string" params, Py.lookup "pageNumber" params with
        | Some t, Some n => Ok {| status_code := 200; text := search_body t n |}
        | _, _ => Ok {| status_code := 400; text := "bad-request" |}
        end
      else if String.eqb url (content_url ++ "C0009044")
      then Ok {| status_code := 200; text := "concept-C0009044" |}
      else if String.eqb url (content_url ++ "C2097260")
      then Ok {| status_code := 200; text := "concept-C2097260" |}
      else Ok {| status_code := 404; text := "not-found" |}
  end.

(** The gateway that knows the key: it counts the requests it has served. *)
Definition gateway : Upstream :=
  {| St := nat;
     serve := fun n q => (answer q, S n);
     json_loads := decode;
     fromstring := parse |}.

(** A gateway that turns every request down with status 401: a page
    without a form for the key, an empty body for the rest. *)
Definition denied : Upstream :=
  {| St := nat;
     serve := fun n q =>
       (match q with
        | POST url _ _ =>
            if String.eqb url (uri ++ auth_endpoint)
            then Ok {| status_code := 401; text := "unauthorized" |}
            else Ok {| status_code := 401; text := EmptyString |}
        | GET _ _ => Ok {| status_code := 401; text := EmptyString |}
        end, S n);
     json_loads := decode;
     fromstring := parse |}.

Definition start : @World gateway := @mkWorld gateway 0%nat [] [].
Definition start_denied : @World denied := @mkWorld denied 0%nat [] [].

Definition client : searchUMLS.t := searchUMLS.init "my-api-key".

(** The batch of the module's own example: two concepts and an identifier
    that names none. *)
Definition concept_ids : list string := ["C0009044"; "C2097260"; "x"].

(** What the stub holds for [kidney stone]: three rows on page 1, two on
    page 2, the marker on every other page. *)
Definition kidney_book (number : Z) : json :=
  if (number =? 1)%Z then
    JObj [("classType", JStr "searchResults");
          ("results", JList [hit "C0022650" "Kidney Calculi"; hit "C0392525" "Nephrolithiasis";
                             hit "C0041952" "Ureteral Calculi"])]
  else if (number =? 2)%Z then
    JObj [("classType", JStr "searchResults");
          ("results", JList [hit "C0042018" "Urinary Calculi"; hit "C0403719" "Staghorn calculus"])]
  else
    JObj [("classType", JStr "searchResults");
          ("results", JList [hit "NONE" "NO RESULTS"])].

(** A record whose descriptor has its identifier first. *)
Definition r_swapped : list (string * json) :=
  [("ui", JStr "C0009044"); ("name", JStr "Closed fracture of carpal bone");
   ("semanticTypes", JList [keyed_descriptor "ui" "T1" "name" "A"])].

Definition r_plain : list (string * json) :=
  [("ui", JStr "C0022650"); ("rootSource", JStr "MTH"); ("name", JStr "Kidney Calculi")].
Definition r_typed : list (string * json) :=
  [("ui", JStr "C0009044"); ("name", JStr "Closed fracture of carpal bone");
   ("semanticTypes", JList [descriptor "A" "T1"; descriptor "B" "T2"])].
Definition r_untyped : list (string * json) :=
  [("ui", JStr "C2097260"); ("name", JStr "Pain of knee"); ("semanticTypes", JList [])].

End Stub.

(** A gateway like [Stub.gateway], except that its answer to the lookup of
    [C0000000] is cut short and does not decode. *)
Module Faulty.

Definition answer (q : Request) : result Response :=
  match q with
  | GET url _ =>
      if String.eqb url (Stub.content_url ++ "C0000000")
      then Ok {| status_code := 200; text := "cut-short" |}
      else Stub.answer q
  | POST _ _ _ => Stub.answer q
  end.

Definition gateway : Upstream :=
  {| St := nat;
     serve := fun n q => (answer q, S n);
     json_loads := Stub.decode;
     fromstring := Stub.parse |}.

Definition start : @World gateway := @mkWorld gateway 0%nat [] [].

(** A record without semantic types next to one that has them. *)
Definition mixed : list (list (string * json)) := [Stub.r_typed; Stub.r_plain].

End Faulty.

(** ** Facts about tables *)

Lemma label_eqb_eq (a b : pd.label) : pd.label_eqb a b = true <-> a = b.
Proof.
  destruct a as [s|i], b as [t|j]; simpl; split; intro H;
    try discriminate; try congruence.
  - apply String.eqb_eq in H. now subst.
  - apply String.eqb_eq. congruence.
  - apply Nat.eqb_eq in H. now subst.
  - apply Nat.eqb_eq. congruence.
Qed.

Lemma label_eqb_refl (a : pd.label) : pd.label_eqb a a = true.
Proof. now apply label_eqb_eq. Qed.

Lemma label_eqb_neq (a b : pd.label) : pd.label_eqb a b = false <-> a <> b.
Proof.
  split.
  - intros H E. apply label_eqb_eq in E. congruence.
  - intro H. destruct (pd.label_eqb a b) eqn:E; [|reflexivity].
    apply label_eqb_eq in E. contradiction.
Qed.

Lemma label_eq_dec (a b : pd.label) : {a = b} + {a <> b}.
Proof.
  destruct (pd.label_eqb a b) eqn:E.
  - left. now apply label_eqb_eq.
  - right. now apply label_eqb_neq.
Qed.

Lemma unique_In (c : pd.label) (ls : list pd.label) :
  In c (pd.unique ls) <-> In c ls.
Proof.
  induction ls as [|l ls IH]; simpl; [tauto|].
  rewrite filter_In, IH.
  destruct (label_eq_dec l c) as [->|N].
  - tauto.
  - apply label_eqb_neq in N. rewrite N. simpl. tauto.
Qed.

Lemma unique_NoDup (ls : list pd.label) : NoDup (pd.unique ls).
Proof.
  induction ls as [|l ls IH]; simpl; constructor.
  - rewrite filter_In, label_eqb_refl. simpl. intros [_ H]. discriminate.
  - now apply NoDup_filter.
Qed.

Lemma assoc_tabulate (A : Type) (f : pd.label -> A) (c : pd.label) (ls : list pd.label) :
  pd.assoc c (map (fun x => (x, f x)) ls) = if in_dec label_eq_dec c ls then Some (f c) else None.
Proof.
  induction ls as [|l ls IH]; simpl; [reflexivity|].
  destruct (pd.label_eqb c l) eqn:E.
  - apply label_eqb_eq in E. subst l.
    destruct (label_eq_dec c c); [reflexivity|contradiction].
  - apply label_eqb_neq in E. rewrite IH.
    destruct (label_eq_dec l c) as [->|N]; [contradiction|].
    destruct (in_dec label_eq_dec c ls); reflexivity.
Qed.

Lemma assoc_labelled (k : string) (d : list (string * json)) :
  pd.assoc (pd.LStr k) (pd.labelled d) = option_map pd.Val (Py.lookup k d).
Proof.
  induction d as [|[k' v] d IH]; simpl; [reflexivity|].
  destruct (String.eqb k k'); [reflexivity|exact IH].
Qed.

Lemma assoc_In (A : Type) (c : pd.label) (l : list (pd.label * A)) (x : A) :
  pd.assoc c l = Some x -> In c (map fst l).
Proof.
  induction l as [|[c' y] l IH]; simpl; [discriminate|].
  destruct (pd.label_eqb c c') eqn:E.
  - apply label_eqb_eq in E. now left.
  - intro H. right. now apply IH.
Qed.

Lemma assoc_None (A : Type) (c : pd.label) (l : list (pd.label * A)) :
  pd.assoc c l = None <-> ~ In c (map fst l).
Proof.
  induction l as [|[c' y] l IH]; simpl; [tauto|].
  destruct (pd.label_eqb c c') eqn:E.
  - apply label_eqb_eq in E. subst. split; [discriminate|tauto].
  - apply label_eqb_neq in E. rewrite IH. split; [intros H [G|G]; [congruence|tauto]|tauto].
Qed.

(** The cell of a table built from labelled rows. *)
Lemma cell_at_of_rows (rs : list pd.lrow) (i : nat) (c : pd.label) :
  pd.cell_at (pd.of_rows rs) i c =
    if in_dec label_eq_dec c (flat_map (map fst) rs)
    then option_map (pd.align c) (nth_error rs i)
    else None.
Proof.
  unfold pd.cell_at, pd.of_rows. simpl.
  rewrite (assoc_tabulate (fun c => map (pd.align c) rs)).
  destruct (in_dec label_eq_dec c (pd.unique (flat_map (map fst) rs))) as [H|H];
    destruct (in_dec label_eq_dec c (flat_map (map fst) rs)) as [G|G];
    rewrite unique_In in H; try contradiction.
  - apply nth_error_map.
  - reflexivity.
Qed.

Lemma in_columns_of_rows (rs : list pd.lrow) (c : pd.label) :
  pd.in_columns c (pd.of_rows rs) = true <-> In c (flat_map (map fst) rs).
Proof.
  unfold pd.in_columns, pd.of_rows. simpl.
  rewrite (assoc_tabulate (fun c => map (pd.align c) rs)).
  destruct (in_dec label_eq_dec c (pd.unique (flat_map (map fst) rs))) as [H|H];
    rewrite unique_In in H; split; intro; try discriminate; tauto.
Qed.

Lemma as_records_objects (recs : list (list (string * json))) :
  pd.as_records (map JObj recs) = Some recs.
Proof.
  induction recs as [|d recs IH]; simpl; [reflexivity|]. now rewrite IH.
Qed.

(** A list of records is always turned into a table. *)
Lemma DataFrame_of_records (recs : list (list (string * json))) :
  pd.DataFrame_of (map JObj recs) =
    Ok (match recs with
        | [] => {| pd.index := 0; pd.columns := [] |}
        | _ => pd.of_rows (map pd.labelled recs)
        end).
Proof.
  destruct recs as [|d recs]; [reflexivity|].
  unfold pd.DataFrame_of. change (map JObj (d :: recs)) with (JObj d :: map JObj recs).
  cbv iota. change (JObj d :: map JObj recs) with (map JObj (d :: recs)).
  now rewrite as_records_objects.
Qed.

Lemma labelled_keys (d : list (string * json)) (k : string) :
  In (pd.LStr k) (map fst (pd.labelled d)) <-> Py.lookup k d <> None.
Proof.
  induction d as [|[k' v] d IH]; simpl; [tauto|].
  destruct (String.eqb k k') eqn:E.
  - apply String.eqb_eq in E. subst. split; [discriminate|now left].
  - apply String.eqb_neq in E. rewrite <- IH. split; [intros [H|H]; [congruence|exact H]|tauto].
Qed.

Lemma in_labels_records (recs : list (list (string * json))) (k : string) :
  In (pd.LStr k) (flat_map (map fst) (map pd.labelled recs)) <->
  exists d, In d recs /\ Py.lookup k d <> None.
Proof.
  rewrite in_flat_map. split.
  - intros [r [Hr Hk]]. apply in_map_iff in Hr. destruct Hr as [d [<- Hd]].
    exists d. split; [exact Hd|]. now apply labelled_keys.
  - intros [d [Hd Hk]]. exists (pd.labelled d). split; [now apply in_map|].
    now apply labelled_keys.
Qed.

(** A row of the table of a list of records holds exactly the fields of
    its record. *)
Lemma cell_at_records (recs : list (list (string * json))) (i : nat)
  (d : list (string * json)) (k : string) (v : json) :
  nth_error recs i = Some d ->
  (pd.cell_at (pd.of_rows (map pd.labelled recs)) i (pd.LStr k) = Some (pd.Val v)
   <-> Py.lookup k d = Some v).
Proof.
  intro Hi. rewrite cell_at_of_rows, nth_error_map, Hi. simpl.
  unfold pd.align. rewrite assoc_labelled.
  destruct (in_dec label_eq_dec (pd.LStr k) (flat_map (map fst) (map pd.labelled recs)))
    as [H|H].
  - destruct (Py.lookup k d) as [v'|]; simpl; split; intro E;
      try discriminate; congruence.
  - split; [discriminate|]. intro E. exfalso. apply H.
    apply in_labels_records. exists d. split; [|congruence].
    eapply nth_error_In; eauto.
Qed.

Lemma mapM_Ok (A B : Type) (f : A -> result B) (g : A -> B) (l : list A) :
  (forall x, In x l -> f x = Ok (g x)) -> pd.mapM f l = Ok (map g l).
Proof.
  induction l as [|x l IH]; intro H; simpl; [reflexivity|].
  rewrite (H x (or_introl eq_refl)), IH; [reflexivity|].
  intros y Hy. apply H. now right.
Qed.

Lemma assoc_set_col_eq (A : Type) (c : pd.label) (x : A) (l : list (pd.label * A)) :
  pd.assoc c (pd.set_col c x l) = Some x.
Proof.
  induction l as [|[c' y] l IH]; simpl.
  - now rewrite label_eqb_refl.
  - destruct (pd.label_eqb c c') eqn:E; simpl.
    + now rewrite label_eqb_refl.
    + now rewrite E.
Qed.

Lemma assoc_set_col_ne (A : Type) (c c' : pd.label) (x : A) (l : list (pd.label * A)) :
  c <> c' -> pd.assoc c' (pd.set_col c x l) = pd.assoc c' l.
Proof.
  intro N. assert (N' : pd.label_eqb c' c = false) by (apply label_eqb_neq; congruence).
  induction l as [|[c0 y] l IH]; simpl.
  - now rewrite N'.
  - destruct (pd.label_eqb c c0) eqn:E; simpl.
    + apply label_eqb_eq in E. subst c0. now rewrite N'.
    + now rewrite IH.
Qed.

Lemma assoc_filter_eq (A : Type) (c : pd.label) (l : list (pd.label * A)) :
  pd.assoc c (filter (fun kc => negb (pd.label_eqb c (fst kc))) l) = None.
Proof.
  induction l as [|[c' y] l IH]; simpl; [reflexivity|].
  destruct (pd.label_eqb c c') eqn:E; simpl; [exact IH|]. now rewrite E.
Qed.

Lemma assoc_filter_ne (A : Type) (c c' : pd.label) (l : list (pd.label * A)) :
  c <> c' ->
  pd.assoc c' (filter (fun kc => negb (pd.label_eqb c (fst kc))) l) = pd.assoc c' l.
Proof.
  intro N.
  induction l as [|[c0 y] l IH]; simpl; [reflexivity|].
  destruct (pd.label_eqb c c0) eqn:E; simpl.
  - apply label_eqb_eq in E. subst c0.
    assert (N' : pd.label_eqb c' c = false) by (apply label_eqb_neq; congruence).
    now rewrite N'.
  - now rewrite IH.
Qed.

Lemma existsb_has_list (recs : list (list (string * json))) :
  existsb has_list recs = true ->
  existsb pd.is_list_cell
    (map (pd.align (pd.LStr "semanticTypes")) (map pd.labelled recs)) = true.
Proof.
  intro H. apply existsb_exists in H. destruct H as [d [Hd Hl]].
  apply existsb_exists. exists (pd.align (pd.LStr "semanticTypes") (pd.labelled d)).
  split.
  - apply in_map. now apply in_map.
  - unfold pd.align. rewrite assoc_labelled. unfold has_list in Hl.
    destruct (Py.lookup "semanticTypes" d) as [[]|]; simpl; try discriminate.
    reflexivity.
Qed.

(** The three steps [df['semanticTypes'].str[0].apply(pd.Series)] on the
    table of a list of records of the fragment. *)
Lemma expanded_records (recs : list (list (string * json))) :
  forallb in_fragment recs = true ->
  existsb has_list recs = true ->
  (st <- pd.getitem (pd.of_rows (map pd.labelled recs)) (pd.LStr "semanticTypes") ;;
   s0 <- pd.str_get0 st ;;
   pd.apply_Series s0)%result = Ok (pd.of_rows (map srow recs)).
Proof.
  intros Hf He.
  assert (Hin : In (pd.LStr "semanticTypes") (flat_map (map fst) (map pd.labelled recs))).
  { apply in_labels_records. apply existsb_exists in He. destruct He as [d [Hd Hl]].
    exists d. split; [exact Hd|]. unfold has_list in Hl.
    destruct (Py.lookup "semanticTypes" d); [discriminate|discriminate Hl]. }
  unfold pd.getitem, pd.of_rows at 1. simpl pd.columns.
  rewrite (assoc_tabulate (fun c => map (pd.align c) (map pd.labelled recs))).
  destruct (in_dec label_eq_dec _ _) as [_|N]; [|rewrite unique_In in N; contradiction].
  cbn [rbind]. unfold pd.str_get0. rewrite (existsb_has_list _ He).
  rewrite map_map.
  rewrite (mapM_Ok _ (fun c => match pd.str_get0_cell c with Ok y => y | Raise _ => pd.NaN end)).
  2:{ intros c Hc. apply in_map_iff in Hc. destruct Hc as [d [<- Hd]].
      rewrite forallb_forall in Hf. specialize (Hf d Hd). unfold in_fragment in Hf.
      unfold pd.align. rewrite assoc_labelled.
      destruct (Py.lookup "semanticTypes" d) as [[| | | |[|[]]|]|]; simpl in *;
        try discriminate; reflexivity. }
  cbn [rbind]. rewrite map_map.
  unfold pd.apply_Series.
  destruct recs as [|d0 recs]; [discriminate He|].
  remember (d0 :: recs) as rs. 
  assert (Hne : exists c cs, map (fun x => match pd.str_get0_cell (pd.align (pd.LStr "semanticTypes") (pd.labelled x)) with Ok y => y | Raise _ => pd.NaN end) rs = c :: cs).
  { subst rs. simpl. eauto. }
  destruct Hne as [c [cs Hne]]. rewrite Hne. rewrite <- Hne. clear Hne c cs.
  rewrite (mapM_Ok _ (fun c => match pd.Series_of c with Ok y => y | Raise _ => [] end)).
  2:{ intros c Hc. apply in_map_iff in Hc. destruct Hc as [d [<- Hd]].
      rewrite forallb_forall in Hf. specialize (Hf d Hd). unfold in_fragment in Hf.
      unfold pd.align. rewrite assoc_labelled.
      destruct (Py.lookup "semanticTypes" d) as [[| | | |[|[]]|]|]; simpl in *;
        try discriminate; reflexivity. }
  simpl rmap. rewrite map_map. f_equal. f_equal.
  apply map_ext_in. intros d Hd.
  rewrite forallb_forall in Hf. specialize (Hf d Hd). unfold in_fragment in Hf.
  unfold pd.align, srow. rewrite assoc_labelled.
  destruct (Py.lookup "semanticTypes" d) as [[| | | |[|[]]|]|]; simpl in *;
    try discriminate; reflexivity.
Qed.

(** Which cells of the table of a list of records are missing: those of
    the fields that the record lacks, and those of its [null] fields. *)
Lemma cell_at_records_isna (recs : list (list (string * json))) (i : nat)
  (d : list (string * json)) (k : string) (c : pd.cell) :
  nth_error recs i = Some d ->
  pd.cell_at (pd.of_rows (map pd.labelled recs)) i (pd.LStr k) = Some c ->
  (pd.isna c = true <-> Py.lookup k d = None \/ Py.lookup k d = Some JNull).
Proof.
  intro Hi. rewrite cell_at_of_rows, nth_error_map, Hi. simpl.
  destruct (in_dec label_eq_dec _ _) as [_|_]; [|discriminate].
  intro E. injection E as <-. unfold pd.align. rewrite assoc_labelled.
  destruct (Py.lookup k d) as [v|]; simpl.
  - destruct v; simpl; split; intro G; try discriminate; auto;
      destruct G as [G|G]; discriminate.
  - split; auto.
Qed.

(** C8: when no record of the collection carries a [semanticTypes] field,
    [get_df] returns what the table conversion returns and nothing else:
    one row per record, a column for each field that some record has, in
    row [i] the string, boolean, list and dict values of record [i] under
    their own names and no other, and a missing value exactly where record
    [i] lacks the field or has [null] for it. *)
Theorem get_df_without_semanticTypes (recs : list (list (string * json))) :
  (forall d, In d recs -> Py.lookup "semanticTypes" d = None) ->
  get_df (map JObj recs) = pd.DataFrame_of (map JObj recs) /\
  exists df,
    get_df (map JObj recs) = Ok df /\
    pd.index df = length recs /\
    (forall k, pd.in_columns (pd.LStr k) df = true <->
               exists d, In d recs /\ Py.lookup k d <> None) /\
    forall i d k,
      nth_error recs i = Some d ->
      (forall v, pd.verbatim v = true ->
         (pd.cell_at df i (pd.LStr k) = Some (pd.Val v) <-> Py.lookup k d = Some v)) /\
      (forall c, pd.cell_at df i (pd.LStr k) = Some c ->
         (pd.isna c = true <-> Py.lookup k d = None \/ Py.lookup k d = Some JNull)).
Proof.
  intro H. unfold get_df. rewrite DataFrame_of_records. cbn [rbind].
  destruct recs as [|d0 recs].
  - simpl. split; [reflexivity|]. eexists. split; [reflexivity|]. split; [reflexivity|].
    split.
    + intro k. split; [discriminate|]. intros [d [[] _]].
    + intros [|i] d k Hi; discriminate.
  - remember (d0 :: recs) as rs.
    assert (E : pd.in_columns (pd.LStr "semanticTypes") (pd.of_rows (map pd.labelled rs)) = false).
    { destruct (pd.in_columns _ _) eqn:E; [|reflexivity].
      apply in_columns_of_rows, in_labels_records in E.
      destruct E as [d [Hd Hk]]. now rewrite (H d Hd) in Hk. }
    rewrite E. split; [reflexivity|]. eexists. split; [reflexivity|].
    split; [unfold pd.of_rows; simpl; now rewrite length_map|].
    split.
    + intro k. rewrite in_columns_of_rows. apply in_labels_records.
    + intros i d k Hi. split.
      * intros v _. now apply cell_at_records.
      * intros c. now apply cell_at_records_isna.
Qed.

(** [get_df] on records of the fragment, one of which carries a list:
    the two new columns are set from the expanded table, then the list
    column is dropped. *)
Lemma get_df_records (recs : list (list (string * json))) :
  forallb in_fragment recs = true ->
  existsb has_list recs = true ->
  get_df (map JObj recs) =
    (df1 <- pd.setitem (pd.of_rows (map pd.labelled recs))
              [pd.LStr "semantic_type"; pd.LStr "TUI"] (pd.of_rows (map srow recs)) ;;
     pd.drop df1 (pd.LStr "semanticTypes"))%result.
Proof.
  intros Hf He. pose proof (expanded_records _ Hf He) as E.
  unfold get_df. rewrite DataFrame_of_records. cbn [rbind].
  destruct recs as [|d0 recs]; [discriminate He|].
  remember (d0 :: recs) as rs.
  assert (Hc : pd.in_columns (pd.LStr "semanticTypes") (pd.of_rows (map pd.labelled rs)) = true).
  { apply in_columns_of_rows, in_labels_records.
    apply existsb_exists in He. destruct He as [d [Hd Hl]].
    exists d. split; [exact Hd|]. unfold has_list in Hl.
    destruct (Py.lookup "semanticTypes" d); [discriminate|discriminate Hl]. }
  rewrite Hc.
  destruct (pd.getitem _ _) as [st|e]; cbn [rbind] in *; [|discriminate E].
  destruct (pd.str_get0 st) as [s0|e]; cbn [rbind] in *; [|discriminate E].
  rewrite E. reflexivity.
Qed.

Lemma unique_pairs (a b : pd.label) (rs : list pd.lrow) :
  a <> b -> rs <> [] -> (forall r, In r rs -> map fst r = [a; b]) ->
  pd.unique (flat_map (map fst) rs) = [a; b].
Proof.
  intros N Hne H.
  assert (Nab : pd.label_eqb a b = false) by now apply label_eqb_neq.
  assert (Nba : pd.label_eqb b a = false) by (apply label_eqb_neq; congruence).
  induction rs as [|r rs IH]; [contradiction|].
  simpl. rewrite (H r (or_introl eq_refl)). simpl.
  destruct rs as [|r' rs].
  - simpl. rewrite Nab. reflexivity.
  - rewrite IH; [|discriminate|intros x Hx; apply H; now right].
    simpl. rewrite !label_eqb_refl, ?Nab, ?Nba. simpl.
    rewrite ?label_eqb_refl, ?Nab, ?Nba. simpl. reflexivity.
Qed.

(** C4: the two new columns are filled by position.  For records that
    each carry a non-empty [semanticTypes] list whose element 0 is a
    two-field object [{k1: a, k2: t}], the flattened table has one row per
    record, with [semantic_type = a], the value of the first field, and
    [TUI = t], the value of the second, in the row of that record, and no
    [semanticTypes] column; the other columns are those of the table
    conversion.  With [k1 = name] and [k2 = ui] the two cells are the label
    and the identifier of element 0. *)
Theorem get_df_semanticTypes (k1 k2 : string) (recs : list (list (string * json))) :
  k1 <> k2 ->
  (forall d, In d recs ->
     exists a t rest,
       Py.lookup "semanticTypes" d = Some (JList (keyed_descriptor k1 a k2 t :: rest))) ->
  exists df,
    get_df (map JObj recs) = Ok df /\
    pd.index df = length recs /\
    pd.in_columns (pd.LStr "semanticTypes") df = false /\
    forall i d a t rest,
      nth_error recs i = Some d ->
      Py.lookup "semanticTypes" d = Some (JList (keyed_descriptor k1 a k2 t :: rest)) ->
      pd.cell_at df i (pd.LStr "semantic_type") = Some (pd.Val (JStr a)) /\
      pd.cell_at df i (pd.LStr "TUI") = Some (pd.Val (JStr t)) /\
      forall k,
        k <> "semanticTypes" -> k <> "semantic_type" -> k <> "TUI" ->
        (forall v, pd.verbatim v = true ->
           (pd.cell_at df i (pd.LStr k) = Some (pd.Val v) <-> Py.lookup k d = Some v)) /\
        (forall c, pd.cell_at df i (pd.LStr k) = Some c ->
           (pd.isna c = true <-> Py.lookup k d = None \/ Py.lookup k d = Some JNull)).
Proof.
  intros K H.
  destruct recs as [|d0 recs].
  - exists {| pd.index := 0; pd.columns := [] |}. repeat split; try reflexivity;
      destruct i; discriminate.
  - remember (d0 :: recs) as rs.
    assert (Hne : rs <> []) by (subst; discriminate).
    assert (Hf : forallb in_fragment rs = true).
    { apply forallb_forall. intros d Hd. destruct (H d Hd) as [a [t [rest E]]].
      unfold in_fragment. now rewrite E. }
    assert (He : existsb has_list rs = true).
    { apply existsb_exists. exists d0. split; [subst; now left|].
      destruct (H d0) as [a [t [rest E]]]; [subst; now left|].
      unfold has_list. now rewrite E. }
    rewrite (get_df_records _ Hf He).
    assert (Hu : pd.unique (flat_map (map fst) (map srow rs)) = [pd.LStr k1; pd.LStr k2]).
    { apply unique_pairs; [congruence| |].
      - subst. discriminate.
      - intros r Hr. apply in_map_iff in Hr. destruct Hr as [d [<- Hd]].
        destruct (H d Hd) as [a [t [rest E]]]. unfold srow. rewrite E. reflexivity. }
    unfold pd.setitem.
    change (pd.columns (pd.of_rows (map srow rs)))
      with (map (fun c => (c, map (pd.align c) (map srow rs)))
                (pd.unique (flat_map (map fst) (map srow rs)))).
    rewrite Hu.
    cbn [map length Nat.eqb rbind pd.set_cols pd.index].
    set (colA := map (pd.align (pd.LStr k1)) (map srow rs)).
    set (colT := map (pd.align (pd.LStr k2)) (map srow rs)).
    set (cols0 := pd.columns (pd.of_rows (map pd.labelled rs))).
    assert (N1 : pd.LStr "TUI" <> pd.LStr "semanticTypes") by discriminate.
    assert (N2 : pd.LStr "semantic_type" <> pd.LStr "semanticTypes") by discriminate.
    assert (N3 : pd.LStr "semantic_type" <> pd.LStr "TUI") by discriminate.
    assert (Hc : pd.in_columns (pd.LStr "semanticTypes") (pd.of_rows (map pd.labelled rs)) = true).
    { apply in_columns_of_rows, in_labels_records.
      exists d0. split; [subst; now left|].
      destruct (H d0) as [a [t [rest E]]]; [subst; now left|]. now rewrite E. }
    unfold pd.drop, pd.in_columns. cbn [pd.columns pd.index].
    rewrite (assoc_set_col_ne _ _ N1), (assoc_set_col_ne _ _ N2).
    unfold pd.in_columns in Hc. fold cols0 in Hc.
    destruct (pd.assoc (pd.LStr "semanticTypes") cols0) eqn:Ec; [|discriminate Hc].
    eexists. split; [reflexivity|]. cbn [pd.index pd.columns].
    split; [unfold pd.of_rows; simpl; now rewrite length_map|].
    split; [now rewrite assoc_filter_eq|].
    intros i d a t rest Hi E.
    unfold pd.cell_at. cbn [pd.columns].
    assert (Hrow : nth_error (map srow rs) i = Some (pd.labelled [(k1, JStr a); (k2, JStr t)])).
    { rewrite nth_error_map, Hi. simpl. unfold srow. now rewrite E. }
    assert (K21 : String.eqb k2 k1 = false) by (apply String.eqb_neq; congruence).
    split; [|split].
    + rewrite assoc_filter_ne by congruence.
      rewrite assoc_set_col_ne by congruence.
      rewrite assoc_set_col_eq. unfold colA. rewrite nth_error_map, Hrow.
      unfold pd.align, pd.labelled. cbn [map fst snd pd.assoc pd.label_eqb option_map].
      now rewrite String.eqb_refl.
    + rewrite assoc_filter_ne by congruence.
      rewrite assoc_set_col_eq. unfold colT. rewrite nth_error_map, Hrow.
      unfold pd.align, pd.labelled. cbn [map fst snd pd.assoc pd.label_eqb option_map].
      now rewrite K21, String.eqb_refl.
    + intros k Q1 Q2 Q3.
      rewrite assoc_filter_ne by congruence.
      rewrite assoc_set_col_ne by congruence.
      rewrite assoc_set_col_ne by congruence.
      split.
      * intros v _. apply (cell_at_records rs i k v Hi).
      * intros c. apply (@cell_at_records_isna rs i d k c Hi).
Qed.

(** C9: when some record of the collection has an empty [semanticTypes]
    list (the others having no such field, an empty list, or a list of
    descriptors), [get_df] raises: the expanded table has one column or at
    least three, never the two that the assignment needs, and the
    [ValueError] of the assignment is not caught. *)
Theorem get_df_empty_semanticTypes (recs : list (list (string * json))) :
  forallb semantic_types_ok recs = true ->
  existsb empty_semantic_types recs = true ->
  get_df (map JObj recs) = Raise ValueError.
Proof.
  intros Hok Hem.
  assert (Hf : forallb in_fragment recs = true).
  { apply forallb_forall. intros d Hd. rewrite forallb_forall in Hok.
    specialize (Hok d Hd). unfold semantic_types_ok in Hok. unfold in_fragment.
    destruct (Py.lookup "semanticTypes" d) as [[| | | |[|[]]|]|]; simpl in *;
      try discriminate; reflexivity. }
  assert (He : existsb has_list recs = true).
  { apply existsb_exists in Hem. destruct Hem as [d [Hd E]].
    apply existsb_exists. exists d. split; [exact Hd|].
    unfold empty_semantic_types in E. unfold has_list.
    destruct (Py.lookup "semanticTypes" d) as [[]|]; try discriminate; reflexivity. }
  rewrite (get_df_records _ Hf He).
  unfold pd.setitem.
  set (U := pd.unique (flat_map (map fst) (map srow recs))).
  assert (HU : length (pd.columns (pd.of_rows (map srow recs))) = length U).
  { unfold pd.of_rows. simpl. now rewrite length_map. }
  rewrite HU.
  assert (H0 : In (pd.LInt 0) U).
  { apply unique_In. apply existsb_exists in Hem. destruct Hem as [d [Hd E]].
    apply in_flat_map. exists (srow d). split; [now apply in_map|].
    unfold empty_semantic_types in E. unfold srow.
    destruct (Py.lookup "semanticTypes" d) as [[| | | |[|]|]|]; try discriminate.
    simpl. now left. }
  assert (Hlen : length U <> 2).
  { destruct (existsb nonempty_semantic_types recs) eqn:Ex.
    - apply existsb_exists in Ex. destruct Ex as [d [Hd E]].
      rewrite forallb_forall in Hok. specialize (Hok d Hd).
      unfold semantic_types_ok in Hok. unfold nonempty_semantic_types in E.
      destruct (Py.lookup "semanticTypes" d) as [[| | | |[|x l]|]|] eqn:El; try discriminate.
      unfold is_descriptor in Hok.
      destruct x as [| | | | |[|[k1 v1] [|[k2 v2] [|]]]]; try discriminate.
      assert (K : k1 <> k2).
      { intro K. subst. rewrite String.eqb_refl in Hok. discriminate. }
      assert (I : incl [pd.LInt 0; pd.LStr k1; pd.LStr k2] U).
      { intros c [<-|[<-|[<-|[]]]]; [exact H0| |];
          apply unique_In, in_flat_map; exists (srow d);
          (split; [now apply in_map|]); unfold srow; rewrite El; simpl; auto. }
      apply NoDup_incl_length in I.
      + simpl in I. lia.
      + repeat constructor; simpl; intuition congruence.
    - assert (I : incl U [pd.LInt 0]).
      { intros c Hc. apply unique_In, in_flat_map in Hc. destruct Hc as [r [Hr Hc]].
        apply in_map_iff in Hr. destruct Hr as [d [<- Hd]].
        assert (E : nonempty_semantic_types d = false).
        { destruct (nonempty_semantic_types d) eqn:E; [|reflexivity].
          assert (X : existsb nonempty_semantic_types recs = true)
            by (apply existsb_exists; eauto).
          congruence. }
        unfold nonempty_semantic_types in E. unfold srow in Hc.
        destruct (Py.lookup "semanticTypes" d) as [[| | | |[|]|]|]; try discriminate;
          simpl in *; tauto. }
      apply NoDup_incl_length in I; [|apply unique_NoDup].
      simpl in I. lia. }
  destruct (length U) as [|[|[|n]]]; try reflexivity. contradiction.
Qed.

(** ** Facts about the page loop *)

Section ClientFacts.

Context {up : Upstream}.

Lemma page_step_Ok (n : Z) (results : list json) (json_data : json)
  (fl : flow) (rs : list json) :
  page_step n results json_data = Ok (fl, rs) ->
  rs = results ++ page_rows json_data /\
  is_empty_results json_data = false /\
  (fl = Continue -> (length results < length rs)%nat /\ (Z.of_nat (length rs) < n)%Z).
Proof.
  unfold page_step, page_rows, is_empty_results.
  destruct json_data as [| | | | |d]; simpl;
    try (intro H; inversion H; subst; rewrite app_nil_r; repeat split; discriminate).
  destruct (Py.lookup "results" d) as [rs0|]; simpl; [|discriminate].
  destruct rs0 as [| | |s|l|d']; simpl; try discriminate.
  - destruct (String.get 0 s); simpl; discriminate.
  - destruct l as [|x rest]; simpl; [discriminate|].
    destruct x as [| | | | |xd]; simpl; try discriminate.
    destruct (Py.lookup "ui" xd) as [ui|]; simpl; [|discriminate].
    destruct (Py.eq_str ui "NONE").
    + intro H. inversion H; subst. rewrite app_nil_r. repeat split; discriminate.
    + unfold Py.len. destruct (Z.of_nat (length (results ++ JObj xd :: rest)) >=? n)%Z eqn:E;
        intro H; inversion H; subst; repeat split; try discriminate.
      * rewrite length_app. simpl. lia.
      * lia.
Qed.

Lemma page_step_empty_results (n : Z) (results : list json) (json_data : json) :
  is_empty_results json_data = true ->
  page_step n results json_data = Raise IndexError.
Proof.
  unfold page_step, is_empty_results.
  destruct json_data as [| | | | |d]; try discriminate. simpl.
  destruct (Py.lookup "results" d) as [[| | | |[|]|]|]; try discriminate.
  reflexivity.
Qed.

Lemma payloads_app (a b : list Event) : payloads (a ++ b) = payloads a ++ payloads b.
Proof. apply flat_map_app. Qed.

Lemma supplied_app (a b : list Event) : supplied (a ++ b) = supplied a ++ supplied b.
Proof. unfold supplied. rewrite payloads_app. apply flat_map_app. Qed.

(** [get_st] makes one [POST] to the granting ticket and returns the body
    of the answer, whatever the answer is. *)
Lemma get_st_run (self : Authentication.t) (tgt : string) (w : World) :
  let q := POST tgt [("service", Authentication.service self)] h in
  get_st self tgt w =
    (rmap text (fst (serve (server w) q)),
     {| server := snd (serve (server w) q);
        trace := trace w ++ [(q, fst (serve (server w) q))];
        stdout := stdout w |}).
Proof.
  unfold get_st, bind, requests_post, exchange, ret. simpl.
  destruct (serve (server w) _) as [[r|e] s]; reflexivity.
Qed.

(** [get_tgt] makes one [POST] to the gateway, parses the body and takes
    the first [action] of a form. *)
Lemma get_tgt_run (self : Authentication.t) (w : World) :
  let q := POST (uri ++ auth_endpoint)%string [("apikey", Authentication.apikey self)] h in
  get_tgt self w =
    ((r <- fst (serve (server w) q) ;;
      response <- fromstring (text r) ;;
      Py.list_getitem (lxml.xpath_form_action response) 0)%result,
     {| server := snd (serve (server w) q);
        trace := trace w ++ [(q, fst (serve (server w) q))];
        stdout := stdout w |}).
Proof.
  unfold get_tgt, bind, requests_post, exchange, lift, ret. simpl.
  destruct (serve (server w) _) as [[r|e] s]; simpl; [|reflexivity].
  destruct (fromstring (text r)) as [doc|e]; simpl; [|reflexivity].
  destruct (Py.list_getitem _ 0); reflexivity.
Qed.

(** One page fetch adds the exchanges of one service ticket and, when the
    ticket came, of one page request; the payload it returns is the only
    page payload among them. *)
Lemma fetch_page_payloads (self : searchUMLS.t) (search_str : string)
  (vocab : option string) (id_type tgt : string) (page : Z) (w w' : World)
  (o : result json) :
  fetch_page self search_str vocab id_type tgt page w = (o, w') ->
  exists new,
    trace w' = trace w ++ new /\
    payloads new = match o with Ok json_data => [json_data] | Raise _ => [] end.
Proof.
  unfold fetch_page, bind. rewrite get_st_run. cbv zeta.
  destruct (serve (server w) _) as [[r1|e1] s1]; simpl.
  2:{ intro H. inversion H; subst. simpl. eexists. split; [reflexivity|reflexivity]. }
  unfold requests_get, exchange. simpl.
  destruct (serve s1 _) as [[r2|e2] s2] eqn:E2; simpl.
  2:{ intro H. inversion H; subst. simpl. rewrite <- app_assoc. eexists. split; [reflexivity|reflexivity]. }
  unfold lift.
  destruct (json_loads (text r2)) as [items|e] eqn:EJ.
  2:{ intro H. inversion H; subst. simpl. rewrite <- app_assoc. eexists. split; [reflexivity|].
      unfold payloads. simpl. rewrite EJ. reflexivity. }
  intro H. inversion H; subst. simpl. rewrite <- app_assoc. eexists. split; [reflexivity|].
  unfold payloads. simpl. rewrite EJ.
  destruct (Py.getitem_str items "result"); reflexivity.
Qed.

(** Every pass that continues adds a row and stays short of [n], so the
    loop ends within [n - len(results)] further passes, plus one. *)
Lemma search_term_loop_terminates (fuel : nat) (self : searchUMLS.t)
  (search_str : string) (vocab : option string) (id_type : string) (n : Z)
  (tgt : string) :
  forall (page : Z) (results : list json) (w : World),
    (Z.to_nat n - length results < fuel)%nat ->
    exists r w',
      search_term_loop fuel self search_str vocab id_type n tgt page results w
      = Some (r, w').
Proof.
  induction fuel as [|fuel IH]; intros page results w Hf; [lia|].
  simpl.
  destruct (fetch_page self search_str vocab id_type tgt (page + 1) w) as [[jd|e] w1];
    [|eauto].
  destruct (page_step n results jd) as [[[|] rs]|e] eqn:E; [eauto| |eauto].
  apply page_step_Ok in E. destruct E as [_ [_ E]].
  destruct (E eq_refl) as [L1 L2].
  apply IH. lia.
Qed.

(** What a finished run of the loop has accumulated and how it can have
    ended, in terms of the page payloads exchanged. *)
Lemma search_term_loop_payloads (fuel : nat) (self : searchUMLS.t)
  (search_str : string) (vocab : option string) (id_type : string) (n : Z)
  (tgt : string) :
  forall (page : Z) (results : list json) (w w' : World) (r : result (list json)),
    search_term_loop fuel self search_str vocab id_type n tgt page results w
    = Some (r, w') ->
    exists new,
      trace w' = trace w ++ new /\
      (forall rs, r = Ok rs -> rs = results ++ supplied new) /\
      (existsb is_empty_results (payloads new) = true -> r = Raise IndexError).
Proof.
  induction fuel as [|fuel IH]; intros page results w w' r; [discriminate|].
  simpl.
  destruct (fetch_page self search_str vocab id_type tgt (page + 1) w) as [[jd|e] w1] eqn:F;
    apply fetch_page_payloads in F; destruct F as [new [T P]].
  - destruct (page_step n results jd) as [[[|] rs]|e] eqn:E.
    + apply page_step_Ok in E. destruct E as [-> [Em _]].
      intro H. inversion H; subst. exists new. split; [exact T|]. split.
      * intros rs0 R. inversion R; subst. unfold supplied. rewrite P. simpl.
        now rewrite app_nil_r.
      * rewrite P. simpl. rewrite Em. discriminate.
    + pose proof E as E'. apply page_step_Ok in E'. destruct E' as [-> [Em _]].
      intro H. apply IH in H. destruct H as [new' [T' [R' X']]].
      exists (new ++ new'). split; [rewrite T', T; now rewrite app_assoc|]. split.
      * intros rs0 R. rewrite (R' rs0 R), supplied_app, app_assoc. f_equal. f_equal.
        unfold supplied. rewrite P. simpl. now rewrite app_nil_r.
      * rewrite payloads_app, existsb_app, P. simpl. rewrite Em. simpl. exact X'.
    + intro H. inversion H; subst. exists new. split; [exact T|]. split; [discriminate|].
      rewrite P. simpl. rewrite orb_false_r. intro Em.
      rewrite (page_step_empty_results _ _ _ Em) in E. congruence.
  - intro H. inversion H; subst. exists new. split; [exact T|]. split; [discriminate|].
    rewrite P. discriminate.
Qed.

Lemma as_records_length (data : list json) (ds : list (list (string * json))) :
  pd.as_records data = Some ds -> length ds = length data.
Proof.
  revert ds. induction data as [|x data IH]; intros ds H; simpl in H.
  - inversion H. reflexivity.
  - destruct x; try discriminate.
    destruct (pd.as_records data) as [ds'|]; [|discriminate].
    inversion H; subst. simpl. now rewrite (IH ds' eq_refl).
Qed.

(** The table of [get_df] has one row per element of the list. *)
Lemma get_df_index (data : list json) (df : pd.DataFrame) :
  get_df data = Ok df -> pd.index df = length data.
Proof.
  unfold get_df.
  assert (D : forall df0, pd.DataFrame_of data = Ok df0 -> pd.index df0 = length data).
  { intros df0. unfold pd.DataFrame_of. destruct data as [|x data].
    - intro H. inversion H. reflexivity.
    - destruct x; try discriminate.
      destruct (pd.as_records _) as [ds|] eqn:E; [|discriminate].
      intro H. inversion H. unfold pd.of_rows. simpl pd.index.
      rewrite length_map. now apply as_records_length. }
  destruct (pd.DataFrame_of data) as [df0|e]; simpl; [|discriminate].
  specialize (D df0 eq_refl).
  destruct (pd.in_columns _ df0).
  - destruct (pd.getitem df0 _) as [st|]; simpl; [|discriminate].
    destruct (pd.str_get0 st) as [s0|]; simpl; [|discriminate].
    destruct (pd.apply_Series s0) as [ex|]; simpl; [|discriminate].
    unfold pd.setitem. destruct (Nat.eqb _ _); simpl; [|discriminate].
    unfold pd.drop. destruct (pd.in_columns _ _); [|discriminate].
    intro H. inversion H. simpl. exact D.
  - intro H. inversion H; subst. exact D.
Qed.

Lemma finish_rows (as_df : bool) (results : list json) (o : output) :
  finish as_df results = Ok o -> n_rows o = length results.
Proof.
  unfold finish. destruct as_df.
  - destruct (get_df results) as [df|] eqn:E; simpl; [|discriminate].
    intro H. inversion H. simpl. now apply get_df_index.
  - intro H. inversion H. reflexivity.
Qed.

(** C10: a term search comes to an end, and if one of the pages it
    fetched has a single-object payload whose [results] list is empty, it
    ends with the [IndexError] of [json_data["results"][0]]: nothing of
    what was accumulated is returned. *)
Theorem search_term_empty_page (fuel : nat) (self : searchUMLS.t)
  (search_str : string) (vocab : option string) (id_type : string) (n : Z)
  (as_df : bool) (w : World) :
  (Z.to_nat n < fuel)%nat ->
  exists out w' new,
    search_term fuel self search_str vocab id_type n as_df w = Some (out, w') /\
    trace w' = trace w ++ new /\
    (existsb is_empty_results (payloads new) = true -> out = Raise IndexError).
Proof.
  intros Hf. unfold search_term.
  pose proof (get_tgt_run (searchUMLS.auth self) w) as G. cbv zeta in G.
  destruct (get_tgt (searchUMLS.auth self) w) as [[tgt|e] w0].
  2:{ do 3 eexists. split; [reflexivity|]. inversion G. split; [reflexivity|discriminate]. }
  assert (T0 : trace w0 = trace w ++ [(POST (uri ++ auth_endpoint)%string
                 [("apikey", Authentication.apikey (searchUMLS.auth self))] h,
                 fst (serve (server w) (POST (uri ++ auth_endpoint)%string
                 [("apikey", Authentication.apikey (searchUMLS.auth self))] h)))]).
  { inversion G. reflexivity. }
  destruct (@search_term_loop_terminates fuel self search_str vocab id_type n tgt 0 [] w0)
    as [r [w1 L]]; [simpl; lia|].
  rewrite L. pose proof (search_term_loop_payloads _ _ _ _ _ _ _ _ _ _ L) as [new [T [_ X]]].
  assert (P : forall ev, payloads (ev :: new) = payloads [ev] ++ payloads new)
    by (intro ev; apply (payloads_app [ev] new)).
  destruct r as [results|e].
  - exists (finish as_df (Py.slice0 n results)), w1. eexists.
    split; [reflexivity|]. split; [rewrite T, T0, <- app_assoc; reflexivity|].
    simpl app. rewrite P. change (payloads [_]) with (@nil json). simpl app.
    intro E. specialize (X E). discriminate.
  - exists (Raise e), w1. eexists.
    split; [reflexivity|]. split; [rewrite T, T0, <- app_assoc; reflexivity|].
    simpl app. rewrite P. change (payloads [_]) with (@nil json). simpl app.
    intro E. specialize (X E). inversion X. reflexivity.
Qed.

(** C2: when the payload of page 1 is a single object whose first result
    has the identifier [NONE], the search stops after that page (the world
    is the one the page fetch left) and returns the empty table, or the
    empty list when no table is asked for. *)
Theorem search_term_NONE (fuel : nat) (self : searchUMLS.t)
  (search_str : string) (vocab : option string) (id_type : string) (n : Z)
  (as_df : bool) (w w0 w1 : World) (tgt : string)
  (d x : list (string * json)) (rest : list json) :
  get_tgt (searchUMLS.auth self) w = (Ok tgt, w0) ->
  fetch_page self search_str vocab id_type tgt 1 w0 = (Ok (JObj d), w1) ->
  Py.lookup "results" d = Some (JList (JObj x :: rest)) ->
  Py.lookup "ui" x = Some (JStr "NONE") ->
  exists o,
    search_term (S fuel) self search_str vocab id_type n as_df w = Some (Ok o, w1) /\
    n_rows o = 0%nat /\
    o = if as_df then AsTable {| pd.index := 0; pd.columns := [] |} else AsList [].
Proof.
  intros G F R U. unfold search_term. rewrite G. simpl search_term_loop.
  rewrite F.
  assert (S : page_step n [] (JObj d) = Ok (Break, [])).
  { unfold page_step. simpl. rewrite R. simpl. rewrite U. reflexivity. }
  rewrite S.
  assert (E : Py.slice0 n (@nil json) = []).
  { unfold Py.slice0. destruct (0 <=? n)%Z; apply firstn_nil. }
  rewrite E. destruct as_df; eexists; (split; [reflexivity|]); split; reflexivity.
Qed.

Lemma node_induction (P : lxml.node -> Prop) :
  (forall s, P (lxml.Text s)) ->
  (forall tag attrib children, Forall P children -> P (lxml.Element tag attrib children)) ->
  forall n, P n.
Proof.
  intros HT HE. fix IH 1. intros [tag attrib children|s]; [|apply HT].
  apply HE. induction children as [|c children IHc]; constructor; [apply IH|exact IHc].
Qed.

(** The XPath query finds exactly the actions of the forms of the
    document. *)
Lemma xpath_form_action_In (n : lxml.node) (a : string) :
  In a (lxml.xpath_form_action n) <-> lxml.form_action n a.
Proof.
  split.
  - revert a. induction n as [s|tag attrib children IH] using node_induction;
      intros a H; [destruct H|].
    simpl in H. apply in_app_or in H. destruct H as [H|H].
    + destruct (String.eqb tag "form") eqn:E; [|destruct H].
      apply String.eqb_eq in E. subst tag.
      destruct (Py.lookup "action" attrib) as [a'|] eqn:L; [|destruct H].
      destruct H as [<-|[]]. now constructor.
    + apply in_flat_map in H. destruct H as [c [Hc Ha]].
      rewrite Forall_forall in IH. eapply lxml.form_below; eauto.
  - induction 1 as [attrib children a L|tag attrib children c a Hc _ IH].
    + simpl. rewrite L. now left.
    + simpl. apply in_or_app. right. apply in_flat_map. eauto.
Qed.

(** C5, as the code has it: [get_tgt] raises [IndexError] when the parsed
    answer of the gateway has no [form] element with an [action]
    attribute, lets the error of the parser through when the body cannot
    be parsed, and otherwise returns the [action] of the first such form as
    the granting ticket.  The status of the answer is not looked at. *)
Theorem get_tgt_outcome (self : Authentication.t) (w : World) (r : Response) (s : St) :
  serve (server w) (tgt_request self) = (Ok r, s) ->
  (forall e, fromstring (text r) = Raise e ->
     get_tgt self w = (Raise e, after w (tgt_request self) (Ok r) s)) /\
  (forall doc, fromstring (text r) = Ok doc ->
     ((forall a, ~ lxml.form_action doc a) ->
      get_tgt self w = (Raise IndexError, after w (tgt_request self) (Ok r) s)) /\
     (forall a l, lxml.xpath_form_action doc = a :: l ->
      get_tgt self w = (Ok a, after w (tgt_request self) (Ok r) s)) /\
     ((exists a, lxml.form_action doc a) ->
      exists a, lxml.form_action doc a /\
                get_tgt self w = (Ok a, after w (tgt_request self) (Ok r) s))).
Proof.
  intros E. pose proof (get_tgt_run self w) as G. cbv zeta in G.
  fold (tgt_request self) in G. rewrite E in G. simpl in G.
  fold (after w (tgt_request self) (Ok r) s) in G. split.
  - intros e P. rewrite G, P. reflexivity.
  - intros doc P. rewrite G, P. simpl. split; [|split].
    + intros X. destruct (lxml.xpath_form_action doc) as [|a l] eqn:Q; [reflexivity|].
      exfalso. apply (X a), xpath_form_action_In. rewrite Q. now left.
    + intros a l X. rewrite X. reflexivity.
    + intros [a Ha]. apply xpath_form_action_In in Ha.
      destruct (lxml.xpath_form_action doc) as [|a' l] eqn:Q; [destruct Ha|].
      exists a'. split; [|reflexivity]. apply xpath_form_action_In. rewrite Q. now left.
Qed.

(** C6, as the code has it: [get_st] returns the body of the answer as
    the service ticket whatever the status and the body are, an empty body
    included; it fails only when the request itself does. *)
Theorem get_st_outcome (self : Authentication.t) (tgt : string) (w : World)
  (r : Response) (s : St) :
  serve (server w) (st_request self tgt) = (Ok r, s) ->
  get_st self tgt w = (Ok (text r), after w (st_request self tgt) (Ok r) s).
Proof.
  intros E. pose proof (get_st_run self tgt w) as G. cbv zeta in G.
  fold (st_request self tgt) in G. rewrite E in G. exact G.
Qed.

(** ** Facts about the concept lookup *)

Lemma bind_Ok (A B : Type) (m : M A) (f : A -> M B) (w w' : World) (b : B) :
  bind m f w = (Ok b, w') ->
  exists a w1, m w = (Ok a, w1) /\ f a w1 = (Ok b, w').
Proof.
  unfold bind. destruct (m w) as [[a|e] w1]; [eauto|discriminate].
Qed.

Lemma get_tgt_Ok (self : Authentication.t) (w w1 : World) (tgt : string) :
  get_tgt self w = (Ok tgt, w1) ->
  exists r,
    granting_ticket r = Some tgt /\
    trace w1 = trace w ++ [(tgt_request self, Ok r)].
Proof.
  rewrite get_tgt_run. cbv zeta. fold (tgt_request self).
  destruct (serve (server w) (tgt_request self)) as [[r|e] s]; simpl; [|discriminate].
  intro H. exists r. unfold granting_ticket.
  destruct (fromstring (text r)) as [doc|e]; simpl in *; [|discriminate].
  unfold Py.list_getitem in H.
  destruct (lxml.xpath_form_action doc) as [|a l]; simpl in *; [discriminate|].
  inversion H; subst. split; reflexivity.
Qed.

Lemma get_st_Ok (self : Authentication.t) (tgt : string) (w w1 : World) (st : string) :
  get_st self tgt w = (Ok st, w1) ->
  exists r,
    st = text r /\
    trace w1 = trace w ++ [(st_request self tgt, Ok r)].
Proof.
  rewrite get_st_run. cbv zeta. fold (st_request self tgt).
  destruct (serve (server w) (st_request self tgt)) as [[r|e] s]; simpl; [|discriminate].
  intro H. exists r. inversion H; subst. split; reflexivity.
Qed.

Lemma requests_get_Ok (url : string) (params : list (string * json)) (w w1 : World)
  (r : Response) :
  requests_get url params w = (Ok r, w1) ->
  trace w1 = trace w ++ [(GET url params, Ok r)].
Proof.
  unfold requests_get, exchange.
  destruct (serve (server w) _) as [[r'|e] s]; [|discriminate].
  intro H. inversion H; subst. reflexivity.
Qed.

Lemma lift_Ok (A : Type) (x : result A) (w w1 : World) (a : A) :
  lift x w = (Ok a, w1) -> x = Ok a /\ w1 = w.
Proof. unfold lift. intro H. inversion H; subst. split; reflexivity. Qed.

(** A finished run of the [for] loop, read off the trace. *)
Lemma search_cui_loop_visits (self : searchUMLS.t) (cui_lst : list string) :
  forall (results rows : list json) (w w' : World),
    search_cui_loop self cui_lst results w = (Ok rows, w') ->
    exists visits,
      map v_cui visits = cui_lst /\
      Forall (fun v => granting_ticket (v_auth v) <> None) visits /\
      trace w' = trace w ++ flat_map (visit_events self) visits /\
      rows = results ++ flat_map visit_record visits.
Proof.
  induction cui_lst as [|cui l IH]; intros results rows w w' H.
  - simpl in H. unfold ret in H. inversion H; subst. exists [].
    simpl. rewrite !app_nil_r. repeat split. constructor.
  - simpl in H.
    apply bind_Ok in H. destruct H as [[] [wp [Hp H]]].
    assert (Tp : trace wp = trace w) by (unfold print in Hp; inversion Hp; reflexivity).
    apply bind_Ok in H. destruct H as [tgt [w1 [H1 H]]].
    apply get_tgt_Ok in H1. destruct H1 as [r1 [G1 T1]].
    apply bind_Ok in H. destruct H as [st [w2 [H2 H]]].
    apply get_st_Ok in H2. destruct H2 as [r2 [-> T2]].
    apply bind_Ok in H. destruct H as [r3 [w3 [H3 H]]].
    apply requests_get_Ok in H3. fold (cui_url cui) in H3.
    apply bind_Ok in H. destruct H as [items [w4 [H4 H]]].
    apply lift_Ok in H4. destruct H4 as [J ->].
    apply bind_Ok in H. destruct H as [err [w5 [H5 H]]].
    apply lift_Ok in H5. destruct H5 as [C ->].
    set (v := {| v_cui := cui; v_auth := r1; v_ticket := r2; v_answer := r3 |}).
    assert (Tv : trace w3 = trace w ++ visit_events self v).
    { unfold visit_events. simpl. rewrite G1, H3, T2, T1, Tp, <- !app_assoc. reflexivity. }
    destruct err.
    + apply bind_Ok in H. destruct H as [[] [w6 [H6 H]]].
      assert (T6 : trace w6 = trace w3) by (unfold print in H6; inversion H6; reflexivity).
      apply IH in H. destruct H as [visits [Hm [Hf [Ht Hr]]]].
      exists (v :: visits). split; [simpl; now rewrite Hm|].
      split; [constructor; [simpl; congruence|exact Hf]|].
      split; [simpl; rewrite Ht, T6, Tv, <- app_assoc; reflexivity|].
      simpl. unfold visit_record at 1. simpl. rewrite J, C. exact Hr.
    + apply bind_Ok in H. destruct H as [res [w6 [H6 H]]].
      apply lift_Ok in H6. destruct H6 as [R ->].
      apply IH in H. destruct H as [visits [Hm [Hf [Ht Hr]]]].
      exists (v :: visits). split; [simpl; now rewrite Hm|].
      split; [constructor; [simpl; congruence|exact Hf]|].
      split; [simpl; rewrite Ht, Tv, <- app_assoc; reflexivity|].
      simpl. unfold visit_record at 1. simpl. rewrite J, C, R.
      rewrite Hr, <- app_assoc. reflexivity.
Qed.

(** C7: when [search_cui] returns, the exchanges it made are, for each
    identifier of the input in order (a repeated identifier is visited
    again), a request for a granting ticket, a request for a service
    ticket at the address just granted and the lookup of the identifier
    with the ticket just issued; what it returns holds, in the same order,
    the record of every answer that carries no error. *)
Theorem search_cui_one_record_per_resolved (self : searchUMLS.t)
  (cui_lst : list string) (as_df : bool) (w w' : World) (o : output) :
  search_cui self cui_lst as_df w = (Ok o, w') ->
  exists visits,
    map v_cui visits = cui_lst /\
    Forall (fun v => granting_ticket (v_auth v) <> None) visits /\
    trace w' = trace w ++ flat_map (visit_events self) visits /\
    finish as_df (flat_map visit_record visits) = Ok o /\
    (as_df = false -> o = AsList (flat_map visit_record visits)).
Proof.
  unfold search_cui. intro H.
  apply bind_Ok in H. destruct H as [rows [w1 [H1 H]]].
  apply lift_Ok in H. destruct H as [F ->].
  apply search_cui_loop_visits in H1. destruct H1 as [visits [Hm [Hf [Ht Hr]]]].
  simpl in Hr. subst rows.
  exists visits. repeat split; try assumption.
  intros ->. simpl in F. congruence.
Qed.

Lemma bind_run (A B : Type) (m : M A) (f : A -> M B) (w w1 : World) (a : A) :
  m w = (Ok a, w1) -> bind m f w = f a w1.
Proof. unfold bind. now intros ->. Qed.

Lemma get_tgt_grants (self : Authentication.t) (w : World) (r : Response) (s : St)
  (a : string) :
  serve (server w) (tgt_request self) = (Ok r, s) ->
  granting_ticket r = Some a ->
  get_tgt self w = (Ok a, after w (tgt_request self) (Ok r) s).
Proof.
  intros E G. rewrite get_tgt_run. cbv zeta. fold (tgt_request self). rewrite E.
  cbn [fst snd rbind]. unfold granting_ticket in G.
  destruct (fromstring (text r)) as [doc|e]; [|discriminate]. cbn [rbind].
  unfold Py.list_getitem. destruct (lxml.xpath_form_action doc); [discriminate|].
  simpl in *. inversion G. reflexivity.
Qed.

Lemma get_st_issues (self : Authentication.t) (tgt : string) (w : World)
  (r : Response) (s : St) :
  serve (server w) (st_request self tgt) = (Ok r, s) ->
  get_st self tgt w = (Ok (text r), after w (st_request self tgt) (Ok r) s).
Proof.
  intros E. rewrite get_st_run. cbv zeta. fold (st_request self tgt). now rewrite E.
Qed.

Lemma requests_get_answers (url : string) (params : list (string * json)) (w : World)
  (r : Response) (s : St) :
  serve (server w) (GET url params) = (Ok r, s) ->
  requests_get url params w = (Ok r, after w (GET url params) (Ok r) s).
Proof. intros E. unfold requests_get, exchange. now rewrite E. Qed.

Lemma search_cui_loop_cons (self : searchUMLS.t) (cui : string) (l : list string)
  (results : list json) :
  search_cui_loop self (cui :: l) results =
    (_ <- print cui ;;
     tgt <- get_tgt (searchUMLS.auth self) ;;
     service_ticket <- get_st (searchUMLS.auth self) tgt ;;
     r <- requests_get (cui_url cui) [("ticket", JStr service_ticket)] ;;
     items <- lift (json_loads (text r)) ;;
     err <- lift (Py.contains_str "error" items) ;;
     if (err : bool) then
       (_ <- print ("No results found for " ++ cui)%string ;;
        search_cui_loop self l results)
     else
       (res <- lift (Py.getitem_str items "result") ;;
        search_cui_loop self l (results ++ [res])))%io.
Proof. reflexivity. Qed.

Lemma search_cui_loop_resolves (self : searchUMLS.t) (db : string -> option json)
  (cui_lst : list string) :
  gateway_serves db cui_lst ->
  forall l, incl l cui_lst ->
  forall (results : list json) (w : World),
    exists w', search_cui_loop self l results w = (Ok (results ++ resolved db l), w').
Proof.
  intros [HA [HP HG]]. induction l as [|cui l IH]; intros Hl results w.
  - simpl. unfold ret. rewrite app_nil_r. eauto.
  - assert (Hc : In cui cui_lst) by (apply Hl; now left).
    assert (Hl' : incl l cui_lst) by (intros x Hx; apply Hl; now right).
    specialize (IH Hl').
    rewrite search_cui_loop_cons.
    set (wp := {| server := server w; trace := trace w; stdout := stdout w ++ [cui] |}).
    rewrite (@bind_run _ _ (print cui) _ w wp tt eq_refl).
    destruct (HA (server wp) [("apikey", Authentication.apikey (searchUMLS.auth self))] h)
      as [r1 [s1 [doc [a [l0 [E1 [F1 X1]]]]]]].
    assert (G1 : granting_ticket r1 = Some a).
    { unfold granting_ticket. rewrite F1, X1. reflexivity. }
    rewrite (@bind_run _ _ _ _ wp _ _ (@get_tgt_grants (searchUMLS.auth self) wp _ _ _ E1 G1)).
    set (w1 := after wp _ _ s1).
    destruct (HP (server w1) a [("service", Authentication.service (searchUMLS.auth self))] h)
      as [r2 [s2 E2]].
    rewrite (@bind_run _ _ _ _ w1 _ _ (@get_st_issues (searchUMLS.auth self) a w1 _ _ E2)).
    set (w2 := after w1 _ _ s2).
    destruct (HG (server w2) cui [("ticket", JStr (text r2))] Hc)
      as [r3 [s3 [items [E3 [J3 D3]]]]].
    rewrite (@bind_run _ _ _ _ w2 _ _ (@requests_get_answers _ _ w2 _ _ E3)).
    set (w3 := after w2 _ _ s3).
    unfold bind at 1. unfold lift at 1. rewrite J3.
    unfold bind at 1. unfold lift at 1. cbn [Py.contains_str]. unfold Py.has_key.
    unfold resolved. cbn [flat_map]. fold (resolved db l).
    destruct (db cui) as [row|].
    + destruct D3 as [De Dr]. rewrite De.
      unfold bind at 1. unfold lift at 1. cbn [Py.getitem_str]. rewrite Dr.
      destruct (IH (results ++ [row]) w3) as [w' E]. exists w'. rewrite E.
      now rewrite <- app_assoc.
    + destruct (Py.lookup "error" items); [|contradiction].
      unfold bind at 1. unfold print at 1.
      apply IH.
Qed.

(** C3: against a gateway that answers the lookups of a batch from a
    catalogue, [search_cui] does not stop at an identifier whose answer
    carries an error: it returns the records of the identifiers of the
    catalogue, in order, and, when the batch is [N] identifiers of the
    catalogue and one that is not, what it returns has [N] rows. *)
Theorem search_cui_skips_errors (self : searchUMLS.t) (db : string -> option json)
  (cui_lst : list string) (as_df : bool) (w : World) :
  gateway_serves db cui_lst ->
  exists w',
    search_cui self cui_lst as_df w = (finish as_df (resolved db cui_lst), w') /\
    finish false (resolved db cui_lst) = Ok (AsList (resolved db cui_lst)) /\
    (forall o, finish as_df (resolved db cui_lst) = Ok o ->
       n_rows o = length (resolved db cui_lst)) /\
    (forall l1 bad l2,
       cui_lst = l1 ++ bad :: l2 ->
       db bad = None ->
       (forall cui, In cui (l1 ++ l2) -> db cui <> None) ->
       length (resolved db cui_lst) = (length l1 + length l2)%nat).
Proof.
  intro HG.
  destruct (search_cui_loop_resolves self HG (incl_refl cui_lst) [] w) as [w' E].
  exists w'. split; [|split; [reflexivity|split]].
  - unfold search_cui, bind. rewrite E. reflexivity.
  - intros o. apply finish_rows.
  - intros l1 bad l2 -> Hb Hv.
    assert (V : forall l, (forall cui, In cui l -> db cui <> None) ->
                          length (resolved db l) = length l).
    { induction l as [|c l IHl]; intro Hl; [reflexivity|].
      unfold resolved. cbn [flat_map]. fold (resolved db l).
      destruct (db c) eqn:Ec; [|exfalso; apply (Hl c); [now left|exact Ec]].
      simpl. rewrite IHl; [reflexivity|]. intros x Hx. apply Hl. now right. }
    unfold resolved. rewrite flat_map_app. cbn [flat_map]. rewrite Hb.
    fold (resolved db l1). fold (resolved db l2).
    rewrite length_app. simpl.
    rewrite !V; [reflexivity| |]; intros x Hx; apply Hv, in_or_app; tauto.
Qed.

(** ** The term search against a paged upstream *)

Lemma page_step_rows (n : Z) (results : list json) (json_data : json) :
  page_rows json_data <> [] ->
  page_step n results json_data =
    Ok (if (Py.len (results ++ page_rows json_data) >=? n)%Z then Break else Continue,
        results ++ page_rows json_data).
Proof.
  unfold page_step, page_rows.
  destruct json_data as [| | | | |d]; simpl; try (intro N; now contradiction N).
  destruct (Py.lookup "results" d) as [[| | | |[|[| | | | |xd] rest]|]|]; simpl;
    try (intro N; now contradiction N).
  destruct (Py.lookup "ui" xd) as [ui|]; simpl; [|intro N; now contradiction N].
  destruct (Py.eq_str ui "NONE"); [intro N; now contradiction N|].
  intros _. destruct (Py.len (results ++ JObj xd :: rest) >=? n)%Z; reflexivity.
Qed.

Lemma page_step_ends (n : Z) (results : list json) (json_data : json) :
  page_ends json_data = true ->
  page_step n results json_data = Ok (Break, results).
Proof.
  unfold page_step, page_ends.
  destruct json_data as [| | | | |d]; simpl; try reflexivity.
  destruct (Py.lookup "results" d) as [[| | | |[|[| | | | |xd] rest]|]|]; simpl;
    try discriminate.
  destruct (Py.lookup "ui" xd) as [ui|]; simpl; [|discriminate].
  now intros ->.
Qed.

(** Against a paged upstream the fetch of a page returns the payload that
    the book has for it. *)
Lemma fetch_page_serves (self : searchUMLS.t) (search_str : string)
  (vocab : option string) (id_type : string) (book : Z -> json) (tgt : string)
  (page : Z) (w : World) :
  gateway_pages search_str vocab id_type book ->
  exists w1, fetch_page self search_str vocab id_type tgt page w = (Ok (book page), w1).
Proof.
  intros [_ [HP HG]].
  destruct (HP (server w) tgt [("service", Authentication.service (searchUMLS.auth self))] h)
    as [r1 [s1 E1]].
  pose proof (@get_st_issues (searchUMLS.auth self) tgt w _ _ E1) as G1.
  set (w1 := after w (st_request (searchUMLS.auth self) tgt) (Ok r1) s1) in G1.
  destruct (HG (server w1) (text r1) page) as [r2 [s2 [items [E2 [J2 D2]]]]].
  pose proof (@requests_get_answers term_url
                (page_query search_str vocab id_type (text r1) page) w1 _ _ E2) as G2.
  unfold fetch_page. cbv zeta.
  rewrite (@bind_run _ _ _ _ w _ _ G1).
  change (rest_uri ++ "search/current")%string with term_url.
  change [("string", JStr search_str); ("ticket", JStr (text r1)); ("pageNumber", JNum page);
          ("sabs", opt_str vocab); ("returnIdType", JStr id_type)]
    with (page_query search_str vocab id_type (text r1) page).
  rewrite (@bind_run _ _ _ _ w1 _ _ G2).
  unfold bind, lift. rewrite J2, D2. eauto.
Qed.

Lemma firstn_enough (A : Type) (k : nat) (l more : list A) :
  (k <= length l)%nat -> firstn k (l ++ more) = firstn k l.
Proof.
  intro H. rewrite firstn_app.
  replace (k - length l)%nat with 0%nat by lia. simpl. apply app_nil_r.
Qed.

(** Against a paged upstream whose next [count] pages supply rows, the
    page loop, when it ends, ends without a failure if those pages hold
    enough rows or if the page after them ends the pagination; the first
    [n] of the rows it has gathered are then the first [n] of the rows
    held before and on those pages. *)
Lemma search_term_loop_upstream (self : searchUMLS.t) (search_str : string)
  (vocab : option string) (id_type : string) (book : Z -> json) (n : Z) (tgt : string) :
  gateway_pages search_str vocab id_type book ->
  (0 <= n)%Z ->
  forall (count : nat) (page : Z) (results : list json) (fuel : nat) (w w' : World)
         (r : result (list json)),
    search_term_loop fuel self search_str vocab id_type n tgt page results w = Some (r, w') ->
    (forall j, (j < count)%nat -> page_rows (book (page + 1 + Z.of_nat j)%Z) <> []) ->
    ((1 <= count)%nat /\
     (Z.to_nat n <= length results + length (upstream_rows book page count))%nat) \/
    page_ends (book (page + 1 + Z.of_nat count)%Z) = true ->
    exists rs,
      r = Ok rs /\
      firstn (Z.to_nat n) rs = firstn (Z.to_nat n) (results ++ upstream_rows book page count).
Proof.
  intros HG Hn.
  induction count as [|count IH]; intros page results fuel w w' r L Hrows Hend.
  - destruct Hend as [[H1 _]|Hend]; [lia|].
    destruct fuel as [|fuel]; [discriminate L|]. simpl in L.
    destruct (@fetch_page_serves self search_str vocab id_type book tgt (page + 1)%Z w HG)
      as [w1 F].
    rewrite F in L. rewrite Z.add_0_r in Hend.
    rewrite (page_step_ends n results _ Hend) in L. injection L as <- <-.
    exists results. split; [reflexivity|]. simpl. now rewrite app_nil_r.
  - destruct fuel as [|fuel]; [discriminate L|]. simpl in L.
    destruct (@fetch_page_serves self search_str vocab id_type book tgt (page + 1)%Z w HG)
      as [w1 F].
    rewrite F in L.
    assert (H0 : page_rows (book (page + 1)%Z) <> []).
    { specialize (Hrows 0%nat). rewrite Z.add_0_r in Hrows. apply Hrows. lia. }
    rewrite (page_step_rows n results _ H0) in L.
    cbn [upstream_rows]. rewrite app_assoc.
    unfold Py.len in L.
    destruct (Z.of_nat (length (results ++ page_rows (book (page + 1)%Z))) >=? n)%Z eqn:C.
    + injection L as <- <-. eexists. split; [reflexivity|].
      symmetry. apply firstn_enough. lia.
    + rewrite Z.geb_leb in C. apply Z.leb_gt in C.
      apply (IH (page + 1)%Z _ fuel w1 w' r L).
      * intros j Hj.
        replace (page + 1 + 1 + Z.of_nat j)%Z with (page + 1 + Z.of_nat (S j))%Z by lia.
        apply Hrows. lia.
      * destruct Hend as [[H1 H2]|Hend].
        -- left. rewrite length_app. cbn [upstream_rows] in H2.
           rewrite length_app in H2.
           destruct count as [|count].
           ++ cbn [upstream_rows length] in H2. rewrite length_app in C. lia.
           ++ split; lia.
        -- right.
           replace (page + 1 + 1 + Z.of_nat count)%Z with (page + 1 + Z.of_nat (S count))%Z
             by lia.
           exact Hend.
Qed.

Lemma slice0_firstn (A : Type) (k : Z) (l : list A) :
  (0 <= k)%Z -> Py.slice0 k l = firstn (Z.to_nat k) l.
Proof. intro H. unfold Py.slice0. destruct (0 <=? k)%Z eqn:E; [reflexivity|lia]. Qed.

(** C1: a term search called with [num_results = k] (a count, [0 <= k])
    comes to an end, within [k + 1] passes of the page loop, and what it
    returns has at most [k] rows: the smaller of [k] and of the number of
    rows that the pages fetched supplied, the list returned being the first
    [k] of those rows.  Against an upstream that holds the pages [book 1],
    [book 2], ... for the search, of which the first [count] supply rows:
    if these pages hold at least [k] rows, the search returns exactly [k]
    rows, the first [k] that the upstream holds, going through as many
    pages as that takes; if the page after them ends the pagination, it
    returns the first [k] of all the rows that the upstream holds.  With
    [as_df=True] this is said of the table that [get_df] makes of those
    rows. *)
Theorem search_term_max_results (fuel : nat) (self : searchUMLS.t)
  (search_str : string) (vocab : option string) (id_type : string) (k : Z)
  (as_df : bool) (w : World) :
  (0 <= k)%Z ->
  (Z.to_nat k < fuel)%nat ->
  (exists out w' new,
     search_term fuel self search_str vocab id_type k as_df w = Some (out, w') /\
     trace w' = trace w ++ new /\
     forall o, out = Ok o ->
       (n_rows o <= Z.to_nat k)%nat /\
       ((Z.to_nat k <= length (supplied new))%nat -> n_rows o = Z.to_nat k) /\
       n_rows o = Nat.min (Z.to_nat k) (length (supplied new)) /\
       (as_df = false -> o = AsList (firstn (Z.to_nat k) (supplied new)))) /\
  (forall (book : Z -> json) (count : nat),
     gateway_pages search_str vocab id_type book ->
     (forall j, (j < count)%nat -> page_rows (book (1 + Z.of_nat j)%Z) <> []) ->
     ((1 <= count)%nat /\ (Z.to_nat k <= length (upstream_rows book 0 count))%nat) \/
     page_ends (book (1 + Z.of_nat count)%Z) = true ->
     exists w',
       search_term fuel self search_str vocab id_type k as_df w
       = Some (finish as_df (firstn (Z.to_nat k) (upstream_rows book 0 count)), w') /\
       finish false (firstn (Z.to_nat k) (upstream_rows book 0 count))
       = Ok (AsList (firstn (Z.to_nat k) (upstream_rows book 0 count))) /\
       forall o,
         finish as_df (firstn (Z.to_nat k) (upstream_rows book 0 count)) = Ok o ->
         n_rows o = Nat.min (Z.to_nat k) (length (upstream_rows book 0 count)) /\
         ((Z.to_nat k <= length (upstream_rows book 0 count))%nat ->
          n_rows o = Z.to_nat k)).
Proof.
  intros Hk Hf. split.
  - unfold search_term.
    pose proof (get_tgt_run (searchUMLS.auth self) w) as G. cbv zeta in G.
    destruct (get_tgt (searchUMLS.auth self) w) as [[tgt|e] w0].
    2:{ do 3 eexists. split; [reflexivity|]. inversion G. split; [reflexivity|discriminate]. }
    assert (T0 : trace w0 = trace w ++ [(POST (uri ++ auth_endpoint)%string
                   [("apikey", Authentication.apikey (searchUMLS.auth self))] h,
                   fst (serve (server w) (POST (uri ++ auth_endpoint)%string
                   [("apikey", Authentication.apikey (searchUMLS.auth self))] h)))]).
    { inversion G. reflexivity. }
    destruct (@search_term_loop_terminates fuel self search_str vocab id_type k tgt 0 [] w0)
      as [r [w1 L]]; [simpl; lia|].
    rewrite L. pose proof (search_term_loop_payloads _ _ _ _ _ _ _ _ _ _ L) as [new [T [R _]]].
    destruct r as [results|e].
    2:{ do 3 eexists. split; [reflexivity|]. split; [|discriminate].
        rewrite T, T0, <- app_assoc. reflexivity. }
    exists (finish as_df (Py.slice0 k results)), w1. eexists.
    split; [reflexivity|]. split; [rewrite T, T0, <- app_assoc; reflexivity|].
    rewrite (R results eq_refl), supplied_app.
    change (supplied [_]) with (@nil json). simpl app.
    rewrite (slice0_firstn _ Hk).
    intros o Ho. rewrite (finish_rows _ _ Ho), length_firstn.
    split; [lia|]. split; [lia|]. split; [reflexivity|].
    intros ->. simpl in Ho. now inversion Ho.
  - intros book count HG Hrows Hend.
    pose proof HG as [HA _].
    destruct (HA (server w) [("apikey", Authentication.apikey (searchUMLS.auth self))] h)
      as [r1 [s1 [doc [a [l0 [E1 [F1 X1]]]]]]].
    assert (G1 : granting_ticket r1 = Some a).
    { unfold granting_ticket. rewrite F1, X1. reflexivity. }
    pose proof (@get_tgt_grants (searchUMLS.auth self) w _ _ _ E1 G1) as G.
    set (w0 := after w (tgt_request (searchUMLS.auth self)) (Ok r1) s1) in G.
    destruct (@search_term_loop_terminates fuel self search_str vocab id_type k a 0 [] w0)
      as [r [w1 L]]; [simpl; lia|].
    destruct (@search_term_loop_upstream self search_str vocab id_type book k a HG Hk
                count 0%Z [] fuel w0 w1 r L) as [rs [-> Hrs]].
    { intros j Hj. rewrite Z.add_0_l. now apply Hrows. }
    { destruct Hend as [Hend|Hend]; [left; exact Hend|right].
      rewrite Z.add_0_l. exact Hend. }
    exists w1. split; [|split].
    + unfold search_term. rewrite G, L. rewrite (slice0_firstn _ Hk), Hrs. reflexivity.
    + reflexivity.
    + intros o Ho. rewrite (finish_rows _ _ Ho), length_firstn. split; [reflexivity|lia].
Qed.

End ClientFacts.

(** ** Further facts *)

(** *** The table *)

Lemma rbind_Ok (A B : Type) (r : result A) (f : A -> result B) (b : B) :
  rbind r f = Ok b -> exists a, r = Ok a /\ f a = Ok b.
Proof. destruct r as [a|e]; simpl; [eauto|discriminate]. Qed.

(** Whenever [get_df] returns a table, the table has one row per element
    of the list and no [semanticTypes] column. *)
Theorem get_df_shape (json_data : list json) (df : pd.DataFrame) :
  get_df json_data = Ok df ->
  pd.index df = length json_data /\
  pd.in_columns (pd.LStr "semanticTypes") df = false.
Proof.
  intro H. split; [now apply get_df_index|].
  unfold get_df in H. apply rbind_Ok in H. destruct H as [df0 [_ H]].
  destruct (pd.in_columns (pd.LStr "semanticTypes") df0) eqn:E.
  - apply rbind_Ok in H. destruct H as [st [_ H]].
    apply rbind_Ok in H. destruct H as [s0 [_ H]].
    apply rbind_Ok in H. destruct H as [ex [_ H]].
    apply rbind_Ok in H. destruct H as [df1 [_ H]].
    unfold pd.drop in H. destruct (pd.in_columns _ df1); [|discriminate].
    inversion H; subst. unfold pd.in_columns. cbn [pd.columns].
    now rewrite assoc_filter_eq.
  - inversion H; subst. exact E.
Qed.

(** A collection in which one record carries a list of descriptors and
    another has no [semanticTypes] at all cannot be flattened: the record
    without the field expands to a column labelled [0] beside the two of
    the descriptor, and the assignment to the two new columns raises. *)
Theorem get_df_mixed_collection (recs : list (list (string * json))) :
  forallb semantic_types_ok recs = true ->
  existsb nonempty_semantic_types recs = true ->
  existsb (fun d => negb (Py.has_key "semanticTypes" d)) recs = true ->
  get_df (map JObj recs) = Raise ValueError.
Proof.
  intros Hok Hne Hab.
  assert (Hf : forallb in_fragment recs = true).
  { apply forallb_forall. intros d Hd. rewrite forallb_forall in Hok.
    specialize (Hok d Hd). unfold semantic_types_ok in Hok. unfold in_fragment.
    destruct (Py.lookup "semanticTypes" d) as [[| | | |[|[]]|]|]; simpl in *;
      try discriminate; reflexivity. }
  assert (He : existsb has_list recs = true).
  { apply existsb_exists in Hne. destruct Hne as [d [Hd E]].
    apply existsb_exists. exists d. split; [exact Hd|].
    unfold nonempty_semantic_types in E. unfold has_list.
    destruct (Py.lookup "semanticTypes" d) as [[]|]; try discriminate; reflexivity. }
  rewrite (get_df_records _ Hf He).
  unfold pd.setitem.
  set (U := pd.unique (flat_map (map fst) (map srow recs))).
  assert (HU : length (pd.columns (pd.of_rows (map srow recs))) = length U).
  { unfold pd.of_rows. simpl. now rewrite length_map. }
  rewrite HU.
  assert (H0 : In (pd.LInt 0) U).
  { apply unique_In. apply existsb_exists in Hab. destruct Hab as [d [Hd E]].
    apply in_flat_map. exists (srow d). split; [now apply in_map|].
    unfold Py.has_key in E. unfold srow.
    destruct (Py.lookup "semanticTypes" d); [discriminate|]. simpl. now left. }
  assert (Hlen : (3 <= length U)%nat).
  { apply existsb_exists in Hne. destruct Hne as [d [Hd E]].
    rewrite forallb_forall in Hok. specialize (Hok d Hd).
    unfold semantic_types_ok in Hok. unfold nonempty_semantic_types in E.
    destruct (Py.lookup "semanticTypes" d) as [[| | | |[|x l]|]|] eqn:El; try discriminate.
    unfold is_descriptor in Hok.
    destruct x as [| | | | |[|[k1 v1] [|[k2 v2] [|]]]]; try discriminate.
    assert (K : k1 <> k2).
    { intro K. subst. rewrite String.eqb_refl in Hok. discriminate. }
    assert (I : incl [pd.LInt 0; pd.LStr k1; pd.LStr k2] U).
    { intros c [<-|[<-|[<-|[]]]]; [exact H0| |];
        apply unique_In, in_flat_map; exists (srow d);
        (split; [now apply in_map|]); unfold srow; rewrite El; simpl; auto. }
    apply NoDup_incl_length in I; [exact I|].
    repeat constructor; simpl; intuition congruence. }
  destruct (length U) as [|[|[|n]]]; try reflexivity; lia.
Qed.

Lemma drop_cell_at (df1 df : pd.DataFrame) (c0 c : pd.label) (i : nat) :
  pd.drop df1 c0 = Ok df -> c <> c0 -> pd.cell_at df i c = pd.cell_at df1 i c.
Proof.
  unfold pd.drop. destruct (pd.in_columns c0 df1); [|discriminate].
  intros H N. injection H as <-. unfold pd.cell_at. cbn [pd.columns].
  rewrite assoc_filter_ne by congruence. reflexivity.
Qed.

Lemma setitem_cell_at (df0 ex df1 : pd.DataFrame) (k1 k2 c : pd.label) (i : nat) :
  pd.setitem df0 [k1; k2] ex = Ok df1 -> c <> k1 -> c <> k2 ->
  pd.cell_at df1 i c = pd.cell_at df0 i c.
Proof.
  unfold pd.setitem. destruct (Nat.eqb _ _); [|discriminate].
  intros H N1 N2. injection H as <-. unfold pd.cell_at. cbn [pd.columns].
  destruct (pd.columns ex) as [|[l1 c1] [|[l2 c2] rest]]; cbn [pd.set_cols].
  - reflexivity.
  - now rewrite assoc_set_col_ne by congruence.
  - rewrite assoc_set_col_ne by congruence. now rewrite assoc_set_col_ne by congruence.
Qed.

(** Whatever the records are, [get_df] leaves the columns other than
    [semanticTypes], [semantic_type] and [TUI] as the table conversion
    made them. *)
Theorem get_df_frame (json_data : list json) (df : pd.DataFrame) :
  get_df json_data = Ok df ->
  exists df0,
    pd.DataFrame_of json_data = Ok df0 /\
    forall c i,
      c <> pd.LStr "semanticTypes" -> c <> pd.LStr "semantic_type" -> c <> pd.LStr "TUI" ->
      pd.cell_at df i c = pd.cell_at df0 i c.
Proof.
  intro H. unfold get_df in H. apply rbind_Ok in H. destruct H as [df0 [D H]].
  exists df0. split; [exact D|]. intros c i N1 N2 N3.
  destruct (pd.in_columns (pd.LStr "semanticTypes") df0).
  - apply rbind_Ok in H. destruct H as [st [_ H]].
    apply rbind_Ok in H. destruct H as [s0 [_ H]].
    apply rbind_Ok in H. destruct H as [ex [_ H]].
    apply rbind_Ok in H. destruct H as [df1 [S H]].
    rewrite (@drop_cell_at df1 df _ c i H N1).
    now apply (@setitem_cell_at df0 ex df1 _ _ c i S).
  - injection H as <-. reflexivity.
Qed.


(** *** One pass of the page loop *)

(** A pass goes through without raising exactly on the well-formed
    payloads; it never drops a row gathered before, and it carries on only
    while fewer than [n] rows are gathered. *)
Theorem page_step_succeeds_iff (n : Z) (results : list json) (json_data : json) :
  ((exists fl rs, page_step n results json_data = Ok (fl, rs)) <->
   well_formed_page json_data = true) /\
  (forall fl rs, page_step n results json_data = Ok (fl, rs) ->
     firstn (length results) rs = results /\
     (fl = Continue -> (Z.of_nat (length rs) < n)%Z)).
Proof.
  split.
  - unfold page_step, well_formed_page, Py.has_key.
    destruct json_data as [| | | | |d]; simpl;
      try (split; [reflexivity|intros _; eauto]).
    destruct (Py.lookup "results" d) as [rs0|]; simpl;
      [|split; [intros [fl [rs H]]|intro H]; discriminate].
    destruct rs0 as [| | |s|l|d']; simpl;
      try (split; [intros [fl [rs H]]|intro H]; discriminate).
    + destruct (String.get 0 s); simpl; split;
        try (intros [fl [rs H]]; discriminate); intro H; discriminate.
    + destruct l as [|x rest]; simpl;
        [split; [intros [fl [rs H]]|intro H]; discriminate|].
      destruct x as [| | | | |xd]; simpl;
        try (split; [intros [fl [rs H]]|intro H]; discriminate).
      destruct (Py.lookup "ui" xd) as [ui|]; simpl;
        [|split; [intros [fl [rs H]]|intro H]; discriminate].
      split; [reflexivity|]. intros _.
      destruct (Py.eq_str ui "NONE"); [eauto|].
      destruct (Py.len (results ++ JObj xd :: rest) >=? n)%Z; eauto.
  - intros fl rs H. apply page_step_Ok in H. destruct H as [-> [_ H]]. split.
    + rewrite firstn_app, Nat.sub_diag, firstn_all. simpl. now rewrite app_nil_r.
    + intro F. now apply H.
Qed.

(** *** The exchanges of a term search *)

Section MoreFacts.

Context {up : Upstream}.

Lemma fetch_page_Ok (self : searchUMLS.t) (search_str : string)
  (vocab : option string) (id_type tgt : string) (page : Z) (w w1 : World)
  (json_data : json) :
  fetch_page self search_str vocab id_type tgt page w = (Ok json_data, w1) ->
  exists r_ticket r_page,
    trace w1 = trace w ++
      [(st_request (searchUMLS.auth self) tgt, Ok r_ticket);
       (GET term_url (page_query search_str vocab id_type (text r_ticket) page), Ok r_page)] /\
    stdout w1 = stdout w.
Proof.
  unfold fetch_page, bind. rewrite get_st_run. cbv zeta.
  fold (st_request (searchUMLS.auth self) tgt).
  destruct (serve (server w) _) as [[r1|e1] s1]; cbn [fst snd rmap]; [|discriminate].
  unfold requests_get, exchange. cbn [server].
  fold term_url. fold (page_query search_str vocab id_type (text r1) page).
  destruct (serve s1 _) as [[r2|e2] s2]; [|discriminate].
  unfold lift. destruct (json_loads (text r2)) as [items|e]; [|discriminate].
  intro H. inversion H; subst. exists r1, r2. unfold after. cbn [trace stdout].
  rewrite <- app_assoc. split; reflexivity.
Qed.

Lemma fetch_page_counts (self : searchUMLS.t) (search_str : string)
  (vocab : option string) (id_type tgt : string) (page : Z) (w w1 : World)
  (o : result json) :
  fetch_page self search_str vocab id_type tgt page w = (o, w1) ->
  exists new,
    trace w1 = trace w ++ new /\
    (length (filter is_GET new) <= 1)%nat /\
    length (filter is_POST new) = 1%nat /\
    stdout w1 = stdout w.
Proof.
  unfold fetch_page, bind. rewrite get_st_run. cbv zeta.
  destruct (serve (server w) _) as [[r1|e1] s1]; cbn [fst snd rmap].
  2:{ intro H. inversion H; subst. eexists. split; [reflexivity|].
      simpl. split; [lia|]. split; [lia|reflexivity]. }
  unfold requests_get, exchange. cbn [server].
  destruct (serve s1 _) as [[r2|e2] s2].
  2:{ intro H. inversion H; subst. unfold after. cbn [trace stdout].
      rewrite <- app_assoc. eexists. split; [reflexivity|]. simpl. split; [lia|]. split; [lia|reflexivity]. }
  unfold lift. destruct (json_loads (text r2)) as [items|e];
    intro H; inversion H; subst; unfold after; cbn [trace stdout];
    rewrite <- app_assoc; eexists; (split; [reflexivity|]); simpl;
    (split; [lia|]); (split; [lia|reflexivity]).
Qed.

Lemma search_term_loop_pages (fuel : nat) (self : searchUMLS.t)
  (search_str : string) (vocab : option string) (id_type : string) (n : Z)
  (tgt : string) :
  forall (page : Z) (results rs : list json) (w w' : World),
    search_term_loop fuel self search_str vocab id_type n tgt page results w
    = Some (Ok rs, w') ->
    exists answers,
      answers <> [] /\
      trace w' = trace w ++ page_events self search_str vocab id_type tgt page answers /\
      stdout w' = stdout w.
Proof.
  induction fuel as [|fuel IH]; intros page results rs w w'; [discriminate|].
  simpl.
  destruct (fetch_page self search_str vocab id_type tgt (page + 1) w) as [[jd|e] w1] eqn:F;
    [|discriminate].
  apply fetch_page_Ok in F. destruct F as [rt [rp [T S]]].
  destruct (page_step n results jd) as [[[|] rs1]|e]; [| |discriminate].
  - intro H. inversion H; subst. exists [(rt, rp)]. split; [discriminate|].
    split; [exact T|exact S].
  - intro H. apply IH in H. destruct H as [answers [_ [T' S']]].
    exists ((rt, rp) :: answers). split; [discriminate|].
    split; [|congruence]. rewrite T', T, <- app_assoc. reflexivity.
Qed.

(** A term search that returns has made these exchanges and no other: one
    request for a granting ticket, then, for the pages 1, 2, ... in order,
    a request for a service ticket at the address granted and the request
    of the page under the ticket just issued.  It prints nothing. *)
Theorem search_term_exchanges (fuel : nat) (self : searchUMLS.t)
  (search_str : string) (vocab : option string) (id_type : string) (n : Z)
  (as_df : bool) (w w' : World) (o : output) :
  search_term fuel self search_str vocab id_type n as_df w = Some (Ok o, w') ->
  exists r0 tgt answers,
    granting_ticket r0 = Some tgt /\
    answers <> [] /\
    trace w' = trace w ++
      (tgt_request (searchUMLS.auth self), Ok r0)
      :: page_events self search_str vocab id_type tgt 0 answers /\
    stdout w' = stdout w.
Proof.
  unfold search_term.
  destruct (get_tgt (searchUMLS.auth self) w) as [[tgt|e] w0] eqn:G; [|discriminate].
  pose proof G as G'. apply get_tgt_Ok in G'. destruct G' as [r0 [Gt T0]].
  assert (S0 : stdout w0 = stdout w).
  { rewrite get_tgt_run in G. inversion G. reflexivity. }
  destruct (search_term_loop fuel self search_str vocab id_type n tgt 0 [] w0)
    as [[[rs|e] w1]|] eqn:L; try discriminate.
  apply search_term_loop_pages in L. destruct L as [answers [Hne [T S]]].
  intro H. inversion H; subst.
  exists r0, tgt, answers. split; [exact Gt|]. split; [exact Hne|].
  split; [|congruence]. rewrite T, T0, <- app_assoc. reflexivity.
Qed.

Lemma search_term_loop_counts (fuel : nat) (self : searchUMLS.t)
  (search_str : string) (vocab : option string) (id_type : string) (n : Z)
  (tgt : string) :
  forall (page : Z) (results : list json) (w w' : World) (r : result (list json)),
    search_term_loop fuel self search_str vocab id_type n tgt page results w
    = Some (r, w') ->
    exists new,
      trace w' = trace w ++ new /\
      (length (filter is_GET new) <= Nat.max 1 (Z.to_nat n - length results))%nat /\
      (length (filter is_POST new) <= Nat.max 1 (Z.to_nat n - length results))%nat /\
      stdout w' = stdout w.
Proof.
  induction fuel as [|fuel IH]; intros page results w w' r; [discriminate|].
  cbn [search_term_loop]. cbv zeta.
  pose proof (Nat.le_max_l 1 (Z.to_nat n - length results)) as M1.
  pose proof (Nat.le_max_r 1 (Z.to_nat n - length results)) as M2.
  destruct (fetch_page self search_str vocab id_type tgt (page + 1) w) as [[jd|e] w1] eqn:F;
    apply fetch_page_counts in F; destruct F as [new [T [CG [CP S]]]].
  - destruct (page_step n results jd) as [[[|] rs1]|e] eqn:E.
    + intro H. inversion H; subst. exists new. split; [exact T|]. split; [lia|]. split; [lia|exact S].
    + apply page_step_Ok in E. destruct E as [_ [_ E]]. destruct (E eq_refl) as [L1 L2].
      intro H. apply IH in H. destruct H as [new' [T' [CG' [CP' S']]]].
      assert (M3 : Nat.max 1 (Z.to_nat n - length rs1) = (Z.to_nat n - length rs1)%nat)
        by (apply Nat.max_r; lia).
      rewrite M3 in CG', CP'.
      exists (new ++ new'). split; [rewrite T', T; now rewrite app_assoc|].
      rewrite !filter_app, !length_app. split; [lia|]. split; [lia|congruence].
    + intro H. inversion H; subst. exists new. split; [exact T|]. split; [lia|]. split; [lia|exact S].
  - intro H. inversion H; subst. exists new. split; [exact T|]. split; [lia|]. split; [lia|exact S].
Qed.

(** A term search asks for one granting ticket and for at most
    [max(1, n)] pages, each with a service ticket of its own, whatever the
    server answers and however the search ends. *)
Theorem search_term_request_bound (fuel : nat) (self : searchUMLS.t)
  (search_str : string) (vocab : option string) (id_type : string) (n : Z)
  (as_df : bool) (w : World) :
  (Z.to_nat n < fuel)%nat ->
  exists out w' new,
    search_term fuel self search_str vocab id_type n as_df w = Some (out, w') /\
    trace w' = trace w ++ new /\
    (length (filter is_GET new) <= Nat.max 1 (Z.to_nat n))%nat /\
    (length (filter is_POST new) <= 1 + Nat.max 1 (Z.to_nat n))%nat /\
    stdout w' = stdout w.
Proof.
  intro Hf. unfold search_term.
  pose proof (Nat.le_max_l 1 (Z.to_nat n)) as M1.
  pose proof (get_tgt_run (searchUMLS.auth self) w) as G. cbv zeta in G.
  destruct (get_tgt (searchUMLS.auth self) w) as [[tgt|e] w0].
  2:{ do 3 eexists. split; [reflexivity|]. inversion G. cbn [trace stdout].
      split; [reflexivity|]. cbn [filter length is_GET is_POST].
      split; [lia|]. split; [lia|reflexivity]. }
  assert (T0 : exists ev, trace w0 = trace w ++ [ev] /\ is_GET ev = false /\ is_POST ev = true).
  { inversion G. eexists. split; [reflexivity|]. split; reflexivity. }
  destruct T0 as [ev [T0 [EG EP]]].
  assert (S0 : stdout w0 = stdout w) by (inversion G; reflexivity).
  destruct (@search_term_loop_terminates _ fuel self search_str vocab id_type n tgt 0 [] w0)
    as [r [w1 L]]; [simpl; lia|].
  rewrite L. apply search_term_loop_counts in L. destruct L as [new [T [CG [CP S]]]].
  simpl length in CG, CP. rewrite Nat.sub_0_r in CG, CP.
  assert (X : trace w1 = trace w ++ ev :: new) by (rewrite T, T0, <- app_assoc; reflexivity).
  destruct r as [results|e]; do 3 eexists; (split; [reflexivity|]);
    (split; [exact X|]); cbn [filter]; rewrite EG, EP; cbn [length];
    (split; [lia|]); (split; [lia|congruence]).
Qed.

(** With a negative [num_results] the loop stops after the first page
    that supplies rows, and [results[0:n]] drops the last [-n] of them. *)
Theorem search_term_negative (fuel : nat) (self : searchUMLS.t)
  (search_str : string) (vocab : option string) (id_type : string) (n : Z)
  (as_df : bool) (w : World) :
  (n < 0)%Z ->
  exists out w' new,
    search_term (S fuel) self search_str vocab id_type n as_df w = Some (out, w') /\
    trace w' = trace w ++ new /\
    (length (filter is_GET new) <= 1)%nat /\
    forall o, out = Ok o ->
      n_rows o = (length (supplied new) - Z.to_nat (- n))%nat.
Proof.
  intro Hn. unfold search_term.
  pose proof (get_tgt_run (searchUMLS.auth self) w) as G. cbv zeta in G.
  destruct (get_tgt (searchUMLS.auth self) w) as [[tgt|e] w0].
  2:{ do 3 eexists. split; [reflexivity|]. inversion G. cbn [trace].
      split; [reflexivity|]. split; [simpl; lia|discriminate]. }
  assert (T0 : exists ev, trace w0 = trace w ++ [ev] /\ is_GET ev = false /\ supplied [ev] = []).
  { inversion G. eexists. split; [reflexivity|]. split; reflexivity. }
  destruct T0 as [ev [T0 [EG ES]]].
  destruct (@search_term_loop_terminates _ (S fuel) self search_str vocab id_type n tgt 0 [] w0)
    as [r [w1 L]]; [simpl; lia|].
  rewrite L.
  pose proof (search_term_loop_counts _ _ _ _ _ _ _ _ _ _ L) as [new [T [CG _]]].
  pose proof (search_term_loop_payloads _ _ _ _ _ _ _ _ _ _ L) as [new' [T' [R _]]].
  assert (new' = new) by (rewrite T in T'; now apply app_inv_head in T').
  subst new'. simpl length in CG. rewrite Nat.sub_0_r in CG.
  assert (X : trace w1 = trace w ++ ev :: new) by (rewrite T, T0, <- app_assoc; reflexivity).
  assert (CG' : (length (filter is_GET (ev :: new)) <= 1)%nat).
  { simpl. rewrite EG. lia. }
  destruct r as [results|e].
  2:{ do 3 eexists. split; [reflexivity|]. split; [exact X|]. split; [exact CG'|discriminate]. }
  do 3 eexists. split; [reflexivity|]. split; [exact X|]. split; [exact CG'|].
  intros o Ho. rewrite (finish_rows _ _ Ho).
  rewrite (R results eq_refl). simpl app.
  change (ev :: new) with ([ev] ++ new). rewrite supplied_app, ES. simpl app.
  unfold Py.slice0. destruct (0 <=? n)%Z eqn:E; [lia|].
  rewrite length_firstn. lia.
Qed.

(** When the answer of the gateway has no form with an action (the key
    is turned down), both searches end in [IndexError] after that single
    exchange: no page and no concept is requested. *)
Theorem search_without_ticket (self : searchUMLS.t) (w : World) (r : Response) (s : St)
  (doc : lxml.node) :
  serve (server w) (tgt_request (searchUMLS.auth self)) = (Ok r, s) ->
  fromstring (text r) = Ok doc ->
  (forall a, ~ lxml.form_action doc a) ->
  (forall fuel search_str vocab id_type n as_df,
     search_term fuel self search_str vocab id_type n as_df w
     = Some (Raise IndexError, after w (tgt_request (searchUMLS.auth self)) (Ok r) s)) /\
  (forall cui cui_lst as_df,
     fst (search_cui self (cui :: cui_lst) as_df w) = Raise IndexError /\
     trace (snd (search_cui self (cui :: cui_lst) as_df w))
     = trace w ++ [(tgt_request (searchUMLS.auth self), Ok r)]).
Proof.
  intros E P X.
  assert (Q : lxml.xpath_form_action doc = []).
  { destruct (lxml.xpath_form_action doc) as [|a l] eqn:Q; [reflexivity|].
    exfalso. apply (X a), xpath_form_action_In. rewrite Q. now left. }
  assert (G : forall w0 : World, server w0 = server w ->
            get_tgt (searchUMLS.auth self) w0
            = (Raise IndexError, after w0 (tgt_request (searchUMLS.auth self)) (Ok r) s)).
  { intros w0 Hs. rewrite get_tgt_run. cbv zeta. fold (tgt_request (searchUMLS.auth self)).
    rewrite Hs, E. cbn [fst snd rbind]. rewrite P. cbn [rbind]. rewrite Q. reflexivity. }
  split.
  - intros. unfold search_term. now rewrite (G w eq_refl).
  - intros cui cui_lst as_df.
    set (wp := {| server := server w; trace := trace w; stdout := stdout w ++ [cui] |}).
    assert (R : search_cui self (cui :: cui_lst) as_df w
                = (Raise IndexError, after wp (tgt_request (searchUMLS.auth self)) (Ok r) s)).
    { unfold search_cui. unfold bind at 1. rewrite search_cui_loop_cons.
      rewrite (@bind_run _ _ _ (print cui) _ w wp tt eq_refl).
      unfold bind at 1. rewrite (G wp eq_refl). reflexivity. }
    rewrite R. split; reflexivity.
Qed.

(** *** The concept lookup as a whole *)

Lemma bind_assoc (A B C : Type) (m : M A) (f : A -> M B) (g : B -> M C) (w : World) :
  bind (bind m f) g w = bind m (fun a => bind (f a) g) w.
Proof. unfold bind. destruct (m w) as [[a|e] w1]; reflexivity. Qed.

Lemma bind_ext (A B : Type) (m : M A) (f g : A -> M B) (w : World) :
  (forall a w1, f a w1 = g a w1) -> bind m f w = bind m g w.
Proof. intro H. unfold bind. destruct (m w) as [[a|e] w1]; [apply H|reflexivity]. Qed.

(** The [for] loop over [l1 ++ l2] is the loop over [l1] followed by the
    loop over [l2] on what the first has gathered. *)
Lemma search_cui_loop_app (self : searchUMLS.t) (l1 l2 : list string) :
  forall (results : list json) (w : World),
    search_cui_loop self (l1 ++ l2) results w
    = bind (search_cui_loop self l1 results)
           (fun results' => search_cui_loop self l2 results') w.
Proof.
  induction l1 as [|cui l1 IH]; intros results w; [reflexivity|].
  change ((cui :: l1) ++ l2) with (cui :: (l1 ++ l2)).
  rewrite !search_cui_loop_cons.
  do 6 (rewrite bind_assoc; apply bind_ext; intros; cbv beta).
  match goal with |- context [if ?b then _ else _] => destruct b end;
    rewrite bind_assoc; apply bind_ext; intros; apply IH.
Qed.

(** What the loop has gathered before it starts is kept in front and has
    no other effect on the run. *)
Lemma search_cui_loop_acc (self : searchUMLS.t) (l : list string) :
  forall (results : list json) (w : World),
    search_cui_loop self l results w
    = (rmap (app results) (fst (search_cui_loop self l [] w)),
       snd (search_cui_loop self l [] w)).
Proof.
  assert (B : forall (A : Type) (m : M A) (f g : A -> M (list json)) (pre : list json) w,
             (forall a w1, f a w1 = (rmap (app pre) (fst (g a w1)), snd (g a w1))) ->
             bind m f w = (rmap (app pre) (fst (bind m g w)), snd (bind m g w))).
  { intros A m f g pre w H. unfold bind. destruct (m w) as [[a|e] w1]; [apply H|reflexivity]. }
  induction l as [|cui l IH]; intros results w.
  - simpl. unfold ret. simpl. now rewrite app_nil_r.
  - rewrite !search_cui_loop_cons.
    do 6 (apply B; intros; cbv beta).
    match goal with |- context [if ?b then _ else _] => destruct b end.
    + apply B. intros. apply IH.
    + apply B. intros res w7. rewrite (IH (results ++ [res])), (IH ([] ++ [res])).
      cbn [fst snd]. f_equal.
      destruct (fst (search_cui_loop self l [] w7)) as [x|e]; [|reflexivity].
      simpl. now rewrite <- app_assoc.
Qed.

(** Looking a batch up in two parts, the second from the world that the
    first leaves, gives the records of the whole batch: those of the first
    part, then those of the second. *)
Theorem search_cui_app (self : searchUMLS.t) (l1 l2 : list string)
  (w w1 w2 : World) (a b : list json) :
  search_cui self l1 false w = (Ok (AsList a), w1) ->
  search_cui self l2 false w1 = (Ok (AsList b), w2) ->
  search_cui self (l1 ++ l2) false w = (Ok (AsList (a ++ b)), w2).
Proof.
  unfold search_cui, finish. intros H1 H2.
  apply bind_Ok in H1. destruct H1 as [a' [w1' [L1 H1]]].
  apply lift_Ok in H1. destruct H1 as [E1 <-]. inversion E1; subst a'.
  apply bind_Ok in H2. destruct H2 as [b' [w2' [L2 H2]]].
  apply lift_Ok in H2. destruct H2 as [E2 <-]. inversion E2; subst b'.
  unfold bind at 1. rewrite search_cui_loop_app.
  rewrite (@bind_run _ _ _ _ _ w w1 a L1).
  rewrite search_cui_loop_acc, L2. reflexivity.
Qed.

(** A failure while a batch is looked up ends the whole call: any batch
    that starts with a batch that fails fails the same way, in the same
    world; the identifiers that follow are not looked up and the records
    gathered before are not returned. *)
Theorem search_cui_aborts (self : searchUMLS.t) (l1 : list string) (w w1 : World)
  (e : exn) :
  search_cui self l1 false w = (Raise e, w1) ->
  forall l2 as_df, search_cui self (l1 ++ l2) as_df w = (Raise e, w1).
Proof.
  unfold search_cui. intros H l2 as_df.
  unfold bind at 1 in H.
  destruct (search_cui_loop self l1 [] w) as [[a|e'] w1'] eqn:L.
  - unfold lift, finish in H. discriminate.
  - inversion H; subst.
    unfold bind at 1. rewrite search_cui_loop_app. unfold bind at 1. rewrite L.
    reflexivity.
Qed.

(** Every identifier of a batch costs three exchanges, two requests for
    tickets and one lookup, and gives at most one row. *)
Theorem search_cui_cost (self : searchUMLS.t) (cui_lst : list string) (as_df : bool)
  (w w' : World) (o : output) :
  search_cui self cui_lst as_df w = (Ok o, w') ->
  exists new,
    trace w' = trace w ++ new /\
    length (filter is_POST new) = (2 * length cui_lst)%nat /\
    length (filter is_GET new) = length cui_lst /\
    (n_rows o <= length cui_lst)%nat.
Proof.
  unfold search_cui. intro H.
  apply bind_Ok in H. destruct H as [rows [w1 [H1 H]]].
  apply lift_Ok in H. destruct H as [F ->].
  apply search_cui_loop_visits in H1. destruct H1 as [visits [Hm [Hf [Ht Hr]]]].
  simpl in Hr. subst rows. subst cui_lst.
  exists (flat_map (visit_events self) visits). split; [exact Ht|].
  rewrite (finish_rows _ _ F). rewrite length_map. clear Ht F.
  induction visits as [|v visits IH]; [simpl; repeat split; lia|].
  inversion Hf as [|? ? Hv Hf']; subst. specialize (IH Hf'). destruct IH as [I1 [I2 I3]].
  cbn [flat_map]. rewrite !filter_app, !length_app.
  assert (E : length (filter is_POST (visit_events self v)) = 2%nat /\
              length (filter is_GET (visit_events self v)) = 1%nat).
  { unfold visit_events. destruct (granting_ticket (v_auth v)); [|contradiction].
    split; reflexivity. }
  assert (R : (length (visit_record v) <= 1)%nat).
  { unfold visit_record. destruct (json_loads _); [|simpl; lia].
    destruct (Py.contains_str _ _) as [[|]|]; try (simpl; lia).
    destruct (Py.getitem_str _ _); simpl; lia. }
  destruct E as [E1 E2]. simpl length. split; [lia|]. split; lia.
Qed.

(** Against a gateway that answers from a catalogue, the call prints every
    identifier as it comes to it, and a notice after each identifier that
    the catalogue does not know; it prints nothing else. *)
Theorem search_cui_prints (self : searchUMLS.t) (db : string -> option json)
  (cui_lst : list string) (as_df : bool) (w : World) :
  gateway_serves db cui_lst ->
  stdout (snd (search_cui self cui_lst as_df w)) = stdout w ++ printed db cui_lst.
Proof.
  intros [HA [HP HG]].
  assert (L : forall l, incl l cui_lst -> forall results w0,
            stdout (snd (search_cui_loop self l results w0)) = stdout w0 ++ printed db l).
  { induction l as [|cui l IH]; intros Hl results w0.
    - simpl. now rewrite app_nil_r.
    - assert (Hc : In cui cui_lst) by (apply Hl; now left).
      assert (Hl' : incl l cui_lst) by (intros x Hx; apply Hl; now right).
      specialize (IH Hl').
      rewrite search_cui_loop_cons.
      set (wp := {| server := server w0; trace := trace w0; stdout := stdout w0 ++ [cui] |}).
      rewrite (@bind_run _ _ _ (print cui) _ w0 wp tt eq_refl).
      destruct (HA (server wp) [("apikey", Authentication.apikey (searchUMLS.auth self))] h)
        as [r1 [s1 [doc [a [l0 [E1 [F1 X1]]]]]]].
      assert (G1 : granting_ticket r1 = Some a).
      { unfold granting_ticket. rewrite F1, X1. reflexivity. }
      rewrite (@bind_run _ _ _ _ _ wp _ _ (@get_tgt_grants _ (searchUMLS.auth self) wp _ _ _ E1 G1)).
      set (w1 := after wp _ _ s1).
      destruct (HP (server w1) a [("service", Authentication.service (searchUMLS.auth self))] h)
        as [r2 [s2 E2]].
      rewrite (@bind_run _ _ _ _ _ w1 _ _ (@get_st_issues _ (searchUMLS.auth self) a w1 _ _ E2)).
      set (w2 := after w1 _ _ s2).
      destruct (HG (server w2) cui [("ticket", JStr (text r2))] Hc)
        as [r3 [s3 [items [E3 [J3 D3]]]]].
      rewrite (@bind_run _ _ _ _ _ w2 _ _ (@requests_get_answers _ _ _ w2 _ _ E3)).
      set (w3 := after w2 _ _ s3).
      unfold bind at 1. unfold lift at 1. rewrite J3.
      unfold bind at 1. unfold lift at 1. cbn [Py.contains_str]. unfold Py.has_key.
      unfold printed. cbn [flat_map]. fold (printed db l).
      destruct (db cui) as [row|].
      + destruct D3 as [De Dr]. rewrite De.
        unfold bind at 1. unfold lift at 1. cbn [Py.getitem_str]. rewrite Dr.
        rewrite IH. unfold w3, w2, w1, wp, after. cbn [stdout].
        rewrite <- app_assoc. reflexivity.
      + destruct (Py.lookup "error" items); [|contradiction].
        unfold bind at 1. unfold print at 1.
        rewrite IH. unfold w3, w2, w1, wp, after. cbn [stdout].
        rewrite <- !app_assoc. reflexivity. }
  unfold search_cui, bind.
  specialize (L cui_lst (incl_refl _) [] w).
  destruct (search_cui_loop self cui_lst [] w) as [[rows|e] w1]; exact L.
Qed.

End MoreFacts.


(** ** The client at work on the stub gateways *)

Example run_kidney_stone_4 :
  exists w',
    @search_term Stub.gateway 5 Stub.client "kidney stone" (Some "MSH, MTH") "concept" 4 false Stub.start
    = Some (Ok (AsList [Stub.hit "C0022650" "Kidney Calculi"; Stub.hit "C0392525" "Nephrolithiasis";
                        Stub.hit "C0041952" "Ureteral Calculi"; Stub.hit "C0042018" "Urinary Calculi"]), w')
    /\ length (trace w') = 5%nat.
Proof. eexists. split; vm_compute; reflexivity. Qed.

(** The batch of the module's example: the two concepts come back as a
    table of two rows with the two new columns, and the identifier that
    names nothing is only mentioned on the output. *)
Example run_concept_ids :
  exists w',
    @search_cui Stub.gateway Stub.client Stub.concept_ids true Stub.start
    = (Ok (AsTable
             {| pd.index := 2;
                pd.columns :=
                  [(pd.LStr "ui", [pd.Val (JStr "C0009044"); pd.Val (JStr "C2097260")]);
                   (pd.LStr "name", [pd.Val (JStr "Closed fracture of carpal bone");
                                     pd.Val (JStr "Pain of knee")]);
                   (pd.LStr "semantic_type", [pd.Val (JStr "Injury or Poisoning");
                                              pd.Val (JStr "Sign or Symptom")]);
                   (pd.LStr "TUI", [pd.Val (JStr "T037"); pd.Val (JStr "T184")])] |}), w') /\
    stdout w' = ["C0009044"; "C2097260"; "x"; "No results found for x"] /\
    length (trace w') = 9%nat.
Proof. eexists. split; [vm_compute; reflexivity|]. split; vm_compute; reflexivity. Qed.

(** ** Instances of the theorems *)

Lemma stub_gateway_pages :
  @gateway_pages Stub.gateway "kidney stone" (Some "MSH, MTH") "concept" Stub.kidney_book.
Proof.
  split; [|split].
  - intros s data hdrs. do 5 eexists. split; [reflexivity|]. split; reflexivity.
  - intros s url data hdrs. simpl. destruct (String.eqb url _); eauto.
  - intros s st page.
    assert (E : @serve Stub.gateway s
                  (GET term_url (page_query "kidney stone" (Some "MSH, MTH") "concept" st page))
                = (Ok {| status_code := 200;
                         text := if (page =? 1)%Z then "stone-1"
                                 else if (page =? 2)%Z then "stone-2" else "no-results" |},
                   S s)) by reflexivity.
    rewrite E. unfold Stub.kidney_book.
    destruct (page =? 1)%Z; [|destruct (page =? 2)%Z];
      do 3 eexists; (split; [reflexivity|]); split; reflexivity.
Defined.

Lemma search_term_max_results_witness :
  (0 <= 4)%Z /\ (Z.to_nat 4 < 5)%nat /\
  (exists out w' new,
     @search_term Stub.gateway 5 Stub.client "kidney stone" (Some "MSH, MTH") "concept" 4 true
       Stub.start = Some (out, w') /\
     trace w' = trace Stub.start ++ new /\
     forall o, out = Ok o ->
       (n_rows o <= Z.to_nat 4)%nat /\
       ((Z.to_nat 4 <= length (@supplied Stub.gateway new))%nat -> n_rows o = Z.to_nat 4) /\
       n_rows o = Nat.min (Z.to_nat 4) (length (@supplied Stub.gateway new)) /\
       (true = false -> o = AsList (firstn (Z.to_nat 4) (@supplied Stub.gateway new)))) /\
  @gateway_pages Stub.gateway "kidney stone" (Some "MSH, MTH") "concept" Stub.kidney_book /\
  (forall j, (j < 2)%nat -> page_rows (Stub.kidney_book (1 + Z.of_nat j)%Z) <> []) /\
  length (page_rows (Stub.kidney_book 1)) = 3%nat /\
  length (upstream_rows Stub.kidney_book 0 2) = 5%nat /\
  exists w',
    @search_term Stub.gateway 5 Stub.client "kidney stone" (Some "MSH, MTH") "concept" 4 true
      Stub.start
    = Some (finish true (firstn (Z.to_nat 4) (upstream_rows Stub.kidney_book 0 2)), w') /\
    finish false (firstn (Z.to_nat 4) (upstream_rows Stub.kidney_book 0 2))
    = Ok (AsList (firstn (Z.to_nat 4) (upstream_rows Stub.kidney_book 0 2))) /\
    forall o,
      finish true (firstn (Z.to_nat 4) (upstream_rows Stub.kidney_book 0 2)) = Ok o ->
      n_rows o = Nat.min (Z.to_nat 4) (length (upstream_rows Stub.kidney_book 0 2)) /\
      ((Z.to_nat 4 <= length (upstream_rows Stub.kidney_book 0 2))%nat ->
       n_rows o = Z.to_nat 4).
Proof.
  assert (P : forall j, (j < 2)%nat -> page_rows (Stub.kidney_book (1 + Z.of_nat j)%Z) <> []).
  { intros [|[|j]] Hj; [cbv; discriminate|cbv; discriminate|lia]. }
  destruct (@search_term_max_results Stub.gateway 5 Stub.client "kidney stone"
              (Some "MSH, MTH") "concept" 4 true Stub.start) as [A B];
    [lia|vm_compute; lia|].
  split; [lia|]. split; [vm_compute; lia|]. split; [exact A|].
  split; [exact stub_gateway_pages|]. split; [exact P|].
  split; [reflexivity|]. split; [reflexivity|].
  apply (B Stub.kidney_book 2%nat stub_gateway_pages P).
  left. split; [lia|vm_compute; lia].
Defined.

Lemma search_term_NONE_witness :
  exists o,
    @search_term Stub.gateway 1 Stub.client "unicorn" None "concept" 200 true Stub.start
    = Some (Ok o,
            snd (fetch_page Stub.client "unicorn" None "concept" Stub.tgt 1
                   (snd (get_tgt (searchUMLS.auth Stub.client) Stub.start)))) /\
    n_rows o = 0%nat /\
    o = AsTable {| pd.index := 0; pd.columns := [] |}.
Proof.
  apply (@search_term_NONE Stub.gateway 0 Stub.client "unicorn" None "concept" 200 true
           Stub.start
           (snd (get_tgt (searchUMLS.auth Stub.client) Stub.start))
           (snd (fetch_page Stub.client "unicorn" None "concept" Stub.tgt 1
                   (snd (get_tgt (searchUMLS.auth Stub.client) Stub.start))))
           Stub.tgt
           [("classType", JStr "searchResults");
            ("results", JList [Stub.hit "NONE" "NO RESULTS"])]
           [("ui", JStr "NONE"); ("rootSource", JStr "MTH"); ("name", JStr "NO RESULTS")]
           []);
    vm_compute; reflexivity.
Defined.

Lemma stub_gateway_serves : @gateway_serves Stub.gateway Stub.catalogue Stub.concept_ids.
Proof.
  split; [|split].
  - intros s data hdrs.
    exists {| status_code := 201; text := "created" |}, (S s), Stub.form_doc, Stub.tgt, [].
    repeat split.
  - intros s url data hdrs.
    change (serve s (POST url data hdrs)) with (Stub.answer (POST url data hdrs), S s).
    unfold Stub.answer.
    destruct (String.eqb url _); eexists; eexists; reflexivity.
  - intros s cui params [<-|[<-|[<-|[]]]].
    + exists {| status_code := 200; text := "concept-C0009044" |}, (S s).
      eexists. split; [reflexivity|]. split; [reflexivity|]. split; reflexivity.
    + exists {| status_code := 200; text := "concept-C2097260" |}, (S s).
      eexists. split; [reflexivity|]. split; [reflexivity|]. split; reflexivity.
    + exists {| status_code := 404; text := "not-found" |}, (S s).
      eexists. split; [reflexivity|]. split; [reflexivity|]. discriminate.
Defined.

Lemma search_cui_skips_errors_witness :
  @gateway_serves Stub.gateway Stub.catalogue Stub.concept_ids /\
  exists w',
    @search_cui Stub.gateway Stub.client Stub.concept_ids true Stub.start
    = (finish true (resolved Stub.catalogue Stub.concept_ids), w') /\
    finish false (resolved Stub.catalogue Stub.concept_ids)
    = Ok (AsList (resolved Stub.catalogue Stub.concept_ids)) /\
    (forall o, finish true (resolved Stub.catalogue Stub.concept_ids) = Ok o ->
       n_rows o = length (resolved Stub.catalogue Stub.concept_ids)) /\
    (forall l1 bad l2,
       Stub.concept_ids = l1 ++ bad :: l2 ->
       Stub.catalogue bad = None ->
       (forall cui, In cui (l1 ++ l2) -> Stub.catalogue cui <> None) ->
       length (resolved Stub.catalogue Stub.concept_ids) = (length l1 + length l2)%nat).
Proof.
  split; [exact stub_gateway_serves|].
  apply (@search_cui_skips_errors Stub.gateway Stub.client Stub.catalogue Stub.concept_ids
           true Stub.start stub_gateway_serves).
Defined.

Lemma get_df_semanticTypes_witness :
  "name" <> "ui" /\
  exists df,
    get_df (map JObj [Stub.r_typed; Stub.r_typed]) = Ok df /\
    pd.index df = length [Stub.r_typed; Stub.r_typed] /\
    pd.in_columns (pd.LStr "semanticTypes") df = false /\
    forall i d a t rest,
      nth_error [Stub.r_typed; Stub.r_typed] i = Some d ->
      Py.lookup "semanticTypes" d = Some (JList (keyed_descriptor "name" a "ui" t :: rest)) ->
      pd.cell_at df i (pd.LStr "semantic_type") = Some (pd.Val (JStr a)) /\
      pd.cell_at df i (pd.LStr "TUI") = Some (pd.Val (JStr t)) /\
      forall k,
        k <> "semanticTypes" -> k <> "semantic_type" -> k <> "TUI" ->
        (forall v, pd.verbatim v = true ->
           (pd.cell_at df i (pd.LStr k) = Some (pd.Val v) <-> Py.lookup k d = Some v)) /\
        (forall c, pd.cell_at df i (pd.LStr k) = Some c ->
           (pd.isna c = true <-> Py.lookup k d = None \/ Py.lookup k d = Some JNull)).
Proof.
  split; [discriminate|].
  apply (@get_df_semanticTypes "name" "ui" [Stub.r_typed; Stub.r_typed]); [discriminate|].
  intros d [<-|[<-|[]]]; exists "A", "T1", [descriptor "B" "T2"]; reflexivity.
Defined.

Lemma get_df_without_semanticTypes_witness :
  get_df (map JObj [Stub.r_plain; [("ui", JStr "C0392525"); ("score", JNum 3); ("name", JNull)]])
  = pd.DataFrame_of
      (map JObj [Stub.r_plain; [("ui", JStr "C0392525"); ("score", JNum 3); ("name", JNull)]]) /\
  exists df,
    get_df (map JObj [Stub.r_plain; [("ui", JStr "C0392525"); ("score", JNum 3); ("name", JNull)]])
    = Ok df /\
    pd.index df
    = length [Stub.r_plain; [("ui", JStr "C0392525"); ("score", JNum 3); ("name", JNull)]] /\
    (forall k, pd.in_columns (pd.LStr k) df = true <->
               exists d,
                 In d [Stub.r_plain; [("ui", JStr "C0392525"); ("score", JNum 3); ("name", JNull)]] /\
                 Py.lookup k d <> None) /\
    forall i d k,
      nth_error [Stub.r_plain; [("ui", JStr "C0392525"); ("score", JNum 3); ("name", JNull)]] i
      = Some d ->
      (forall v, pd.verbatim v = true ->
         (pd.cell_at df i (pd.LStr k) = Some (pd.Val v) <-> Py.lookup k d = Some v)) /\
      (forall c, pd.cell_at df i (pd.LStr k) = Some c ->
         (pd.isna c = true <-> Py.lookup k d = None \/ Py.lookup k d = Some JNull)).
Proof.
  apply (get_df_without_semanticTypes
           [Stub.r_plain; [("ui", JStr "C0392525"); ("score", JNum 3); ("name", JNull)]]).
  intros d [<-|[<-|[]]]; reflexivity.
Defined.

Lemma get_df_empty_semanticTypes_witness :
  get_df (map JObj [Stub.r_typed; Stub.r_untyped; Stub.r_plain]) = Raise ValueError.
Proof.
  apply (get_df_empty_semanticTypes [Stub.r_typed; Stub.r_untyped; Stub.r_plain]);
    reflexivity.
Defined.

Lemma get_tgt_outcome_witness :
  (forall e, @fromstring Stub.gateway "created" = Raise e ->
     get_tgt (searchUMLS.auth Stub.client) Stub.start
     = (Raise e, after Stub.start (tgt_request (searchUMLS.auth Stub.client))
                   (Ok {| status_code := 201; text := "created" |}) 1%nat)) /\
  (forall doc, @fromstring Stub.gateway "created" = Ok doc ->
     ((forall a, ~ lxml.form_action doc a) ->
      get_tgt (searchUMLS.auth Stub.client) Stub.start
      = (Raise IndexError, after Stub.start (tgt_request (searchUMLS.auth Stub.client))
                             (Ok {| status_code := 201; text := "created" |}) 1%nat)) /\
     (forall a l, lxml.xpath_form_action doc = a :: l ->
      get_tgt (searchUMLS.auth Stub.client) Stub.start
      = (Ok a, after Stub.start (tgt_request (searchUMLS.auth Stub.client))
                 (Ok {| status_code := 201; text := "created" |}) 1%nat)) /\
     ((exists a, lxml.form_action doc a) ->
      exists a, lxml.form_action doc a /\
        get_tgt (searchUMLS.auth Stub.client) Stub.start
        = (Ok a, after Stub.start (tgt_request (searchUMLS.auth Stub.client))
                   (Ok {| status_code := 201; text := "created" |}) 1%nat))).
Proof.
  apply (@get_tgt_outcome Stub.gateway (searchUMLS.auth Stub.client) Stub.start
           {| status_code := 201; text := "created" |} 1%nat).
  reflexivity.
Defined.

(** On the stub, the key is accepted and the granting ticket is the address
    of the login form. *)
Example run_get_tgt :
  fst (get_tgt (searchUMLS.auth Stub.client) Stub.start) = Ok Stub.tgt.
Proof. reflexivity. Qed.

Lemma get_st_outcome_witness :
  get_st (searchUMLS.auth Stub.client) Stub.tgt Stub.start
  = (Ok "ST-1-cas",
     after Stub.start (st_request (searchUMLS.auth Stub.client) Stub.tgt)
       (Ok {| status_code := 200; text := "ST-1-cas" |}) 1%nat).
Proof.
  apply (@get_st_outcome Stub.gateway (searchUMLS.auth Stub.client) Stub.tgt Stub.start
           {| status_code := 200; text := "ST-1-cas" |} 1%nat).
  reflexivity.
Defined.

Lemma search_cui_one_record_per_resolved_witness :
  exists visits,
    map v_cui visits = ["C0009044"; "x"; "C0009044"] /\
    Forall (fun v => @granting_ticket Stub.gateway (v_auth v) <> None) visits /\
    trace (snd (search_cui Stub.client ["C0009044"; "x"; "C0009044"] false Stub.start))
    = trace Stub.start ++ flat_map (@visit_events Stub.gateway Stub.client) visits /\
    finish false (flat_map (@visit_record Stub.gateway) visits) = Ok (AsList [Stub.c_fracture; Stub.c_fracture]) /\
    (false = false -> AsList [Stub.c_fracture; Stub.c_fracture] = AsList (flat_map (@visit_record Stub.gateway) visits)).
Proof.
  apply (@search_cui_one_record_per_resolved Stub.gateway Stub.client
           ["C0009044"; "x"; "C0009044"] false Stub.start
           (snd (search_cui Stub.client ["C0009044"; "x"; "C0009044"] false Stub.start))
           (AsList [Stub.c_fracture; Stub.c_fracture])).
  vm_compute. reflexivity.
Defined.

Lemma search_term_empty_page_witness :
  (Z.to_nat 50 < 51)%nat /\
  exists out w' new,
    @search_term Stub.gateway 51 Stub.client "gall stone" None "concept" 50 true Stub.start
    = Some (out, w') /\
    trace w' = trace Stub.start ++ new /\
    (existsb is_empty_results (@payloads Stub.gateway new) = true -> out = Raise IndexError).
Proof.
  split; [vm_compute; lia|].
  apply (@search_term_empty_page Stub.gateway); vm_compute; lia.
Defined.

(** On the stub, the search for [gall stone] fetches a second page whose
    [results] list is empty and ends in [IndexError]; the three rows of
    page 1 are lost. *)
Example run_gall_stone :
  exists w',
    @search_term Stub.gateway 51 Stub.client "gall stone" None "concept" 50 true Stub.start
    = Some (Raise IndexError, w') /\
    existsb is_empty_results (@payloads Stub.gateway (trace w')) = true /\
    length (@supplied Stub.gateway (trace w')) = 3%nat.
Proof. eexists. split; [vm_compute; reflexivity|]. split; vm_compute; reflexivity. Qed.

(** ** Where the documentation and the code part *)

(** C5, against the claim: a gateway that turns the key down answers with
    a page without a form; [get_tgt] then raises [IndexError], which is not
    the [AuthError] of the documentation. *)
Lemma get_tgt_raises_IndexError :
  serve (server Stub.start_denied) (tgt_request (searchUMLS.auth Stub.client))
  = (Ok {| status_code := 401; text := "unauthorized" |}, 1%nat) /\
  @fromstring Stub.denied "unauthorized" = Ok (Stub.plain_doc "unauthorized") /\
  (forall a, ~ lxml.form_action (Stub.plain_doc "unauthorized") a) /\
  fst (get_tgt (searchUMLS.auth Stub.client) Stub.start_denied) = Raise IndexError /\
  fst (get_tgt (searchUMLS.auth Stub.client) Stub.start_denied) <> Raise AuthError.
Proof.
  split; [reflexivity|]. split; [reflexivity|]. split; [|split].
  - intros a H. apply xpath_form_action_In in H. exact H.
  - reflexivity.
  - vm_compute. discriminate.
Qed.

(** C6, against the claim: on an answer with status 401 and an empty body,
    [get_st] does not fail: it returns the empty string as the ticket. *)
Lemma get_st_returns_empty_body :
  serve (server Stub.start_denied) (st_request (searchUMLS.auth Stub.client) Stub.tgt)
  = (Ok {| status_code := 401; text := EmptyString |}, 1%nat) /\
  fst (get_st (searchUMLS.auth Stub.client) Stub.tgt Stub.start_denied) = Ok EmptyString /\
  forall e, fst (get_st (searchUMLS.auth Stub.client) Stub.tgt Stub.start_denied) <> Raise e.
Proof.
  repeat split; try reflexivity. intros e. vm_compute. discriminate.
Qed.

(** C4, against the claim: on a record whose element 0 has its identifier
    first, [{ui: T1, name: A}], the flattened row has the identifier under
    [semantic_type] and the label under [TUI]. *)
Lemma get_df_swapped_descriptor :
  Py.lookup "semanticTypes" Stub.r_swapped
  = Some (JList [JObj [("ui", JStr "T1"); ("name", JStr "A")]]) /\
  exists df,
    get_df [JObj Stub.r_swapped] = Ok df /\
    pd.cell_at df 0 (pd.LStr "semantic_type") = Some (pd.Val (JStr "T1")) /\
    pd.cell_at df 0 (pd.LStr "TUI") = Some (pd.Val (JStr "A")) /\
    pd.cell_at df 0 (pd.LStr "semantic_type") <> Some (pd.Val (JStr "A")) /\
    pd.cell_at df 0 (pd.LStr "TUI") <> Some (pd.Val (JStr "T1")).
Proof.
  split; [reflexivity|]. eexists. split; [vm_compute; reflexivity|].
  split; [reflexivity|]. split; [reflexivity|]. split; vm_compute; discriminate.
Qed.

(** ** Instances of the further facts *)

Lemma get_df_shape_witness :
  pd.index (pd.mkDataFrame 1
              [(pd.LStr "ui", [pd.Val (JStr "C0009044")]);
               (pd.LStr "name", [pd.Val (JStr "Closed fracture of carpal bone")]);
               (pd.LStr "semantic_type", [pd.Val (JStr "A")]);
               (pd.LStr "TUI", [pd.Val (JStr "T1")])])
  = length [JObj Stub.r_typed] /\
  pd.in_columns (pd.LStr "semanticTypes")
    (pd.mkDataFrame 1
       [(pd.LStr "ui", [pd.Val (JStr "C0009044")]);
        (pd.LStr "name", [pd.Val (JStr "Closed fracture of carpal bone")]);
        (pd.LStr "semantic_type", [pd.Val (JStr "A")]);
        (pd.LStr "TUI", [pd.Val (JStr "T1")])]) = false.
Proof.
  apply (@get_df_shape [JObj Stub.r_typed]). reflexivity.
Defined.

Lemma get_df_frame_witness :
  exists df0,
    pd.DataFrame_of [JObj Stub.r_typed] = Ok df0 /\
    forall c i,
      c <> pd.LStr "semanticTypes" -> c <> pd.LStr "semantic_type" -> c <> pd.LStr "TUI" ->
      pd.cell_at
        (pd.mkDataFrame 1
           [(pd.LStr "ui", [pd.Val (JStr "C0009044")]);
            (pd.LStr "name", [pd.Val (JStr "Closed fracture of carpal bone")]);
            (pd.LStr "semantic_type", [pd.Val (JStr "A")]);
            (pd.LStr "TUI", [pd.Val (JStr "T1")])]) i c
      = pd.cell_at df0 i c.
Proof.
  apply (@get_df_frame [JObj Stub.r_typed]). reflexivity.
Defined.

Lemma get_df_mixed_collection_witness :
  get_df (map JObj Faulty.mixed) = Raise ValueError.
Proof.
  apply (get_df_mixed_collection Faulty.mixed); reflexivity.
Defined.

Lemma search_term_exchanges_witness :
  exists r0 tgt answers,
    @granting_ticket Stub.gateway r0 = Some tgt /\
    answers <> [] /\
    trace (@after Stub.gateway
             (@after Stub.gateway
                (@after Stub.gateway Stub.start
                   (tgt_request (searchUMLS.auth Stub.client))
                   (Ok {| status_code := 201; text := "created" |}) 1%nat)
                (st_request (searchUMLS.auth Stub.client) Stub.tgt)
                (Ok {| status_code := 200; text := "ST-1-cas" |}) 2%nat)
             (GET term_url (page_query "kidney stone" None "concept" "ST-1-cas" 1))
             (Ok {| status_code := 200; text := "stone-1" |}) 3%nat)
    = trace Stub.start ++
      (tgt_request (searchUMLS.auth Stub.client), Ok r0)
      :: page_events Stub.client "kidney stone" None "concept" tgt 0 answers /\
    stdout
      (@after Stub.gateway
         (@after Stub.gateway
            (@after Stub.gateway Stub.start
               (tgt_request (searchUMLS.auth Stub.client))
               (Ok {| status_code := 201; text := "created" |}) 1%nat)
            (st_request (searchUMLS.auth Stub.client) Stub.tgt)
            (Ok {| status_code := 200; text := "ST-1-cas" |}) 2%nat)
         (GET term_url (page_query "kidney stone" None "concept" "ST-1-cas" 1))
         (Ok {| status_code := 200; text := "stone-1" |}) 3%nat)
    = stdout Stub.start.
Proof.
  apply (@search_term_exchanges Stub.gateway 3 Stub.client "kidney stone" None "concept" 2
           false Stub.start _
           (AsList [Stub.hit "C0022650" "Kidney Calculi"; Stub.hit "C0392525" "Nephrolithiasis"])).
  vm_compute. reflexivity.
Defined.

Lemma search_term_request_bound_witness :
  exists out w' new,
    @search_term Stub.gateway 3 Stub.client "kidney stone" None "concept" 2 true Stub.start
    = Some (out, w') /\
    trace w' = trace Stub.start ++ new /\
    (length (filter is_GET new) <= Nat.max 1 (Z.to_nat 2))%nat /\
    (length (filter is_POST new) <= 1 + Nat.max 1 (Z.to_nat 2))%nat /\
    stdout w' = stdout Stub.start.
Proof.
  apply (@search_term_request_bound Stub.gateway). vm_compute. lia.
Defined.

Lemma search_term_negative_witness :
  exists out w' new,
    @search_term Stub.gateway 1 Stub.client "kidney stone" None "concept" (-1) false Stub.start
    = Some (out, w') /\
    trace w' = trace Stub.start ++ new /\
    (length (filter is_GET new) <= 1)%nat /\
    forall o, out = Ok o ->
      n_rows o = (length (@supplied Stub.gateway new) - Z.to_nat (- (-1)))%nat.
Proof.
  apply (@search_term_negative Stub.gateway 0). lia.
Defined.

(** On the stub, [num_results = -1] returns the first two of the three
    rows of page 1. *)
Example run_negative :
  exists w',
    @search_term Stub.gateway 1 Stub.client "kidney stone" None "concept" (-1) false Stub.start
    = Some (Ok (AsList [Stub.hit "C0022650" "Kidney Calculi";
                        Stub.hit "C0392525" "Nephrolithiasis"]), w').
Proof. eexists. vm_compute. reflexivity. Qed.

Lemma search_without_ticket_witness :
  (forall fuel search_str vocab id_type n as_df,
     @search_term Stub.denied fuel Stub.client search_str vocab id_type n as_df
       Stub.start_denied
     = Some (Raise IndexError,
             after Stub.start_denied (tgt_request (searchUMLS.auth Stub.client))
               (Ok {| status_code := 401; text := "unauthorized" |}) 1%nat)) /\
  (forall cui cui_lst as_df,
     fst (@search_cui Stub.denied Stub.client (cui :: cui_lst) as_df Stub.start_denied)
     = Raise IndexError /\
     trace (snd (@search_cui Stub.denied Stub.client (cui :: cui_lst) as_df Stub.start_denied))
     = trace Stub.start_denied ++
       [(tgt_request (searchUMLS.auth Stub.client),
         Ok {| status_code := 401; text := "unauthorized" |})]).
Proof.
  apply (@search_without_ticket Stub.denied Stub.client Stub.start_denied
           {| status_code := 401; text := "unauthorized" |} 1%nat
           (Stub.plain_doc "unauthorized")).
  - reflexivity.
  - reflexivity.
  - intros a H. apply xpath_form_action_In in H. exact H.
Defined.

Lemma search_cui_app_witness :
  @search_cui Stub.gateway Stub.client (["C0009044"; "x"] ++ ["C2097260"]) false Stub.start
  = (Ok (AsList ([Stub.c_fracture] ++ [Stub.c_pain])),
     snd (@search_cui Stub.gateway Stub.client ["C2097260"] false
            (snd (@search_cui Stub.gateway Stub.client ["C0009044"; "x"] false Stub.start)))).
Proof.
  apply (@search_cui_app Stub.gateway Stub.client ["C0009044"; "x"] ["C2097260"] Stub.start
           (snd (@search_cui Stub.gateway Stub.client ["C0009044"; "x"] false Stub.start)));
    vm_compute; reflexivity.
Defined.

Lemma search_cui_aborts_witness :
  @search_cui Faulty.gateway Stub.client (["C0009044"; "C0000000"] ++ ["C2097260"]) true
    Faulty.start
  = (Raise JSONDecodeError,
     snd (@search_cui Faulty.gateway Stub.client ["C0009044"; "C0000000"] false Faulty.start)).
Proof.
  apply (@search_cui_aborts Faulty.gateway Stub.client ["C0009044"; "C0000000"] Faulty.start).
  vm_compute. reflexivity.
Defined.

Lemma search_cui_cost_witness :
  exists new,
    trace (snd (@search_cui Stub.gateway Stub.client Stub.concept_ids true Stub.start))
    = trace Stub.start ++ new /\
    length (filter is_POST new) = (2 * length Stub.concept_ids)%nat /\
    length (filter is_GET new) = length Stub.concept_ids /\
    (n_rows
       (AsTable
          {| pd.index := 2;
             pd.columns :=
               [(pd.LStr "ui", [pd.Val (JStr "C0009044"); pd.Val (JStr "C2097260")]);
                (pd.LStr "name", [pd.Val (JStr "Closed fracture of carpal bone");
                                  pd.Val (JStr "Pain of knee")]);
                (pd.LStr "semantic_type", [pd.Val (JStr "Injury or Poisoning");
                                           pd.Val (JStr "Sign or Symptom")]);
                (pd.LStr "TUI", [pd.Val (JStr "T037"); pd.Val (JStr "T184")])] |})
     <= length Stub.concept_ids)%nat.
Proof.
  apply (@search_cui_cost Stub.gateway Stub.client Stub.concept_ids true Stub.start).
  vm_compute. reflexivity.
Defined.

Lemma search_cui_prints_witness :
  stdout (snd (@search_cui Stub.gateway Stub.client Stub.concept_ids true Stub.start))
  = stdout Stub.start ++ printed Stub.catalogue Stub.concept_ids.
Proof.
  apply (@search_cui_prints Stub.gateway Stub.client Stub.catalogue Stub.concept_ids true
           Stub.start stub_gateway_serves).
Defined.
